(** * Diffbot MCP server: the query builders and the response formatters

    A shallow embedding of [src/diffbot_mcp_server.py]: the two tools
    [dql_search] and [enhance_entity], their argument validation, the
    query-parameter mappings they send, and the text they build from the
    parsed JSON body of the response.  Python values are embedded with the
    part of the run-time semantics that the source relies on (truth values,
    [in], subscripting, [str]/[repr], [format], [join]), exceptions are an
    explicit result type, and the HTTP client is an oracle whose calls are
    recorded in a trace. *)

From Stdlib Require Import ZArith List String Ascii Bool Lia Floats DecimalString.
Import ListNotations.

Local Open Scope string_scope.
Local Open Scope Z_scope.

(** ** Strings

    A Python [str] is embedded as a [string]; one [ascii] stands for one
    character, so the embedding covers the code points below 256. *)

Module PyStr.

Fixpoint repeat (s : string) (n : nat) : string :=
  match n with
  | O => ""
  | S k => s ++ repeat s k
  end.

(** [s[:n]] *)
Fixpoint take (n : nat) (s : string) : string :=
  match n, s with
  | S k, String c s' => String c (take k s')
  | _, _ => ""
  end.

(** [s[n:]] *)
Fixpoint drop (n : nat) (s : string) : string :=
  match n, s with
  | S k, String _ s' => drop k s'
  | _, _ => s
  end.

Definition code (c : ascii) : Z := Z.of_nat (nat_of_ascii c).

Definition is_upper (c : ascii) : bool := (65 <=? code c) && (code c <=? 90).
Definition is_lower (c : ascii) : bool := (97 <=? code c) && (code c <=? 122).
Definition is_alpha (c : ascii) : bool := is_upper c || is_lower c.

Definition to_lower (c : ascii) : ascii :=
  if is_upper c then ascii_of_nat (nat_of_ascii c + 32) else c.
Definition to_upper (c : ascii) : ascii :=
  if is_lower c then ascii_of_nat (nat_of_ascii c - 32) else c.

(** [s.lower()]; the program applies it to ASCII literals only, and the
    embedding maps the ASCII letters. *)
Fixpoint lower (s : string) : string :=
  match s with
  | "" => ""
  | String c s' => String (to_lower c) (lower s')
  end.

(** [s.title()]: a letter that follows a non-letter is upper-cased, any
    other letter is lower-cased (ASCII letters, as for [lower]). *)
Fixpoint title_from (prev_cased : bool) (s : string) : string :=
  match s with
  | "" => ""
  | String c s' =>
      String (if prev_cased then to_lower c else to_upper c)
             (title_from (is_alpha c) s')
  end.
Definition title (s : string) : string := title_from false s.

(** [s.replace(old, new)] for a non-empty [old]: occurrences are replaced
    from the left and do not overlap.  [skip] counts the characters of an
    occurrence that are still to be passed over. *)
Fixpoint replace_from (old new s : string) (skip : nat) : string :=
  match s with
  | "" => ""
  | String c s' =>
      match skip with
      | S k => replace_from old new s' k
      | O =>
          if prefix old s
          then new ++ replace_from old new s' (String.length old - 1)
          else String c (replace_from old new s' 0)
      end
  end.
Definition replace (old new s : string) : string := replace_from old new s 0.

(** The characters [str.strip()] removes, among the code points below 256. *)
Definition is_space (c : ascii) : bool :=
  let n := code c in
  ((9 <=? n) && (n <=? 13)) || ((28 <=? n) && (n <=? 32))
  || (n =? 133) || (n =? 160).

Fixpoint lstrip (s : string) : string :=
  match s with
  | "" => ""
  | String c s' => if is_space c then lstrip s' else s
  end.

Fixpoint rstrip (s : string) : string :=
  match s with
  | "" => ""
  | String c s' =>
      match rstrip s' with
      | "" => if is_space c then "" else String c ""
      | r => String c r
      end
  end.

Definition strip (s : string) : string := rstrip (lstrip s).

(** [sub in s] for two strings *)
Definition contains (sub s : string) : bool :=
  match index 0 sub s with
  | Some _ => true
  | None => false
  end.

(** [sep.join(parts)] for a list of strings *)
Definition join (sep : string) (parts : list string) : string :=
  String.concat sep parts.

(** [t] occurs in [s] as a contiguous piece *)
Definition occurs (t s : string) : Prop :=
  exists pre post : string, s = pre ++ t ++ post.

End PyStr.

(** ** Numbers

    [str] of a Python [int], and [str] and [format(_, '.3f')] of a Python
    [float].  A float is a binary64 value ([PrimFloat.float]); both
    renderings are computed from its exact value [m * 2^e]. *)

Module PyNum.

Definition str_of_Z (z : Z) : string := NilZero.string_of_int (Z.to_int z).

Definition str_of_nat (n : nat) : string := str_of_Z (Z.of_nat n).

(** [a / b] rounded to the nearest integer, ties to even ([0 <= a], [0 < b]) *)
Definition div_half_even (a b : Z) : Z :=
  let q := a / b in
  match 2 * (a mod b) ?= b with
  | Lt => q
  | Gt => q + 1
  | Eq => if Z.even q then q else q + 1
  end.

Definition zeros (n : Z) : string := PyStr.repeat "0" (Z.to_nat n).

(** the decimal digits of [n], left-padded with zeros to [w] digits *)
Definition pad_left (w : Z) (n : Z) : string :=
  let s := str_of_Z n in
  zeros (w - Z.of_nat (String.length s)) ++ s.

(** [k] thousandths as a fixed-point numeral with three decimals *)
Definition fixed3 (neg : bool) (k : Z) : string :=
  (if neg then "-" else "") ++ str_of_Z (k / 1000) ++ "." ++ pad_left 3 (k mod 1000).

(** [m * 2^e * 1000] rounded to an integer, ties to even *)
Definition thousandths (m e : Z) : Z :=
  if 0 <=? e then m * 2 ^ e * 1000
  else div_half_even (m * 1000) (2 ^ (- e)).

(** [format(x, '.3f')] for a float [x] *)
Definition float_format_3f (x : float) : string :=
  match Prim2SF x with
  | S754_zero s => fixed3 s 0
  | S754_infinity s => if s then "-inf" else "inf"
  | S754_nan => "nan"
  | S754_finite s m e => fixed3 s (thousandths (Zpos m) e)
  end.

(** [float(z)]: the integer nearest to [z] that is a binary64 value, ties
    to even; [None] stands for [OverflowError] *)
Definition float_of_int (z : Z) : option Z :=
  let a := Z.abs z in
  let shift := Z.max 0 (Z.log2 a + 1 - 53) in
  let r := div_half_even a (2 ^ shift) * 2 ^ shift in
  if 2 ^ 1024 <=? r then None else Some r.

(** [format(z, '.3f')] for an int [z]: the int is converted to a float first *)
Definition int_format_3f (z : Z) : option string :=
  match float_of_int z with
  | Some r => Some (fixed3 (z <? 0) (r * 1000))
  | None => None
  end.

(** *** [repr] of a float: the shortest decimal that reads back as the
    same binary64 value, and among those the one nearest to it. *)

(** [a * 10^q] compared with [b * 2^f] *)
Definition cmp_dec_bin (a q b f : Z) : comparison :=
  (a * 10 ^ Z.max q 0 * 2 ^ Z.max (- f) 0)
    ?= (b * 2 ^ Z.max f 0 * 10 ^ Z.max (- q) 0).

(** [floor (m * 2^e / 10^k)] *)
Definition floor_scaled (m e k : Z) : Z :=
  (m * 2 ^ Z.max e 0 * 10 ^ Z.max (- k) 0)
    / (2 ^ Z.max (- e) 0 * 10 ^ Z.max k 0).

(** the [p] with [10^(p-1) <= m * 2^e < 10^p], searched from an estimate *)
Fixpoint decimal_point_from (fuel : nat) (m e p : Z) : Z :=
  match fuel with
  | O => p
  | S k =>
      match cmp_dec_bin 1 p m e with
      | Gt =>
          match cmp_dec_bin 1 (p - 1) m e with
          | Gt => decimal_point_from k m e (p - 1)
          | _ => p
          end
      | _ => decimal_point_from k m e (p + 1)
      end
  end.
Definition decimal_point (m e : Z) : Z :=
  decimal_point_from 8 m e ((Z.log2 m + e) * 30103 / 100000).

(** does the decimal [d * 10^q] read back as [m * 2^e]?  The value must
    lie between the midpoints to the neighbouring floats, the midpoints
    included when [m] is even. *)
Definition reads_back (m e d q : Z) : bool :=
  let below := if (m =? 2 ^ 52) && (-1074 <? e) then 1 else 2 in
  let lo := cmp_dec_bin d q (4 * m - below) (e - 2) in
  let hi := cmp_dec_bin d q (4 * m + 2) (e - 2) in
  match lo, hi with
  | Gt, Lt => true
  | Eq, _ | _, Eq => Z.even m
  | _, _ => false
  end.

(** the shortest digits, tried with [n, n+1, ...] significant digits;
    the result is the integer [d] and the exponent [q] of [d * 10^q] *)
Fixpoint shortest_from (fuel : nat) (m e p n : Z) : Z * Z :=
  let q := p - n in
  let d := floor_scaled m e q in
  match fuel with
  | O => (d, q)
  | S k =>
      match reads_back m e d q, reads_back m e (d + 1) q with
      | true, true =>
          match cmp_dec_bin (2 * d + 1) q (2 * m) e with
          | Gt => (d, q)
          | _ => (d + 1, q)
          end
      | true, false => (d, q)
      | false, true => (d + 1, q)
      | false, false => shortest_from k m e p (n + 1)
      end
  end.

Fixpoint strip_zeros (fuel : nat) (d q : Z) : Z * Z :=
  match fuel with
  | O => (d, q)
  | S k => if (d mod 10 =? 0) && (0 <? d) then strip_zeros k (d / 10) (q + 1) else (d, q)
  end.

(** [repr] style of CPython: fixed notation when the decimal point [decpt]
    satisfies [-4 < decpt <= 16], exponent notation otherwise *)
Definition repr_digits (digits : string) (decpt : Z) : string :=
  let n := Z.of_nat (String.length digits) in
  if (-4 <? decpt) && (decpt <=? 16) then
    if decpt <=? 0 then "0." ++ zeros (- decpt) ++ digits
    else if n <=? decpt then digits ++ zeros (decpt - n) ++ ".0"
    else PyStr.take (Z.to_nat decpt) digits ++ "." ++ PyStr.drop (Z.to_nat decpt) digits
  else
    let x := decpt - 1 in
    PyStr.take 1 digits
      ++ (if 1 <? n then "." ++ PyStr.drop 1 digits else "")
      ++ "e" ++ (if x <? 0 then "-" else "+") ++ pad_left 2 (Z.abs x).

Definition float_repr (x : float) : string :=
  match Prim2SF x with
  | S754_zero s => if s then "-0.0" else "0.0"
  | S754_infinity s => if s then "-inf" else "inf"
  | S754_nan => "nan"
  | S754_finite s m e =>
      let '(d0, q0) := shortest_from 17 (Zpos m) e (decimal_point (Zpos m) e) 1 in
      let '(d, q) := strip_zeros 20 d0 q0 in
      let digits := str_of_Z d in
      (if s then "-" else "")
        ++ repr_digits digits (q + Z.of_nat (String.length digits))
  end.

End PyNum.

(** ** Parsed JSON and the Python operations the source applies to it *)

Definition nl : string := String (ascii_of_nat 10) "".

(** The value [response.json()] returns.  A [dict] keeps its keys in
    insertion order, so it is an association list; a key is looked up at
    its first entry (the keys of a parsed object are distinct). *)
#[warnings="-register-all"]
Inductive json : Type :=
  | JNull
  | JBool (b : bool)
  | JInt (z : Z)
  | JFloat (x : float)
  | JStr (s : string)
  | JList (items : list json)
  | JDict (fields : list (string * json)).

Definition dict : Type := list (string * json).

Fixpoint lookup (k : string) (d : dict) : option json :=
  match d with
  | [] => None
  | (k', v) :: rest => if String.eqb k k' then Some v else lookup k rest
  end.

Definition has_key (k : string) (d : dict) : bool :=
  match lookup k d with
  | Some _ => true
  | None => false
  end.

Definition dict_keys (d : dict) : list string := map fst d.

(** Exceptions.  The message of an exception that the run time or the HTTP
    client raises is theirs and is not modelled; [Exception prefix cause]
    is [Exception(f"{prefix}{str(cause)}")] as the source raises it. *)
Inductive exn : Type :=
  | ValueError (msg : string)
  | FormatCodeError          (* the [ValueError] of [format] for a [str] and code [f] *)
  | JSONDecodeError          (* [response.json()] on a body that is not JSON *)
  | TypeError
  | AttributeError
  | KeyError
  | IndexError
  | OverflowError
  | HTTPStatusError (status : Z)
  | TransportError
  | Exception (prefix : string) (cause : exn).

(** The Python class of the exception object. *)
Inductive exn_class : Type :=
  | CException | CValueError | CJSONDecodeError | CTypeError | CAttributeError
  | CKeyError | CIndexError | COverflowError | CHTTPStatusError | CTransportError.

Definition class_of (e : exn) : exn_class :=
  match e with
  | ValueError _ | FormatCodeError => CValueError
  | JSONDecodeError => CJSONDecodeError
  | TypeError => CTypeError
  | AttributeError => CAttributeError
  | KeyError => CKeyError
  | IndexError => CIndexError
  | OverflowError => COverflowError
  | HTTPStatusError _ => CHTTPStatusError
  | TransportError => CTransportError
  | Exception _ _ => CException
  end.

(** [isinstance(e, httpx.HTTPError)] *)
Definition is_http_error (e : exn) : bool :=
  match e with
  | HTTPStatusError _ | TransportError => true
  | _ => false
  end.

Inductive result (A : Type) : Type :=
  | Ok (a : A)
  | Raise (e : exn).
Arguments Ok {A} a.
Arguments Raise {A} e.

Definition bind {A B : Type} (r : result A) (k : A -> result B) : result B :=
  match r with
  | Ok a => k a
  | Raise e => Raise e
  end.

Declare Scope py_scope.
Delimit Scope py_scope with py.
Notation "x <- r ;; k" := (bind r (fun x => k))
  (at level 61, r at next level, right associativity) : py_scope.
Local Open Scope py_scope.

Definition returns {A : Type} (r : result A) : bool :=
  match r with
  | Ok _ => true
  | Raise _ => false
  end.

Module Py.

(** [bool(v)] *)
Definition truthy (v : json) : bool :=
  match v with
  | JNull => false
  | JBool b => b
  | JInt z => negb (z =? 0)
  | JFloat x => negb (PrimFloat.eqb x 0%float)
  | JStr s => negb (String.length s =? 0)%nat
  | JList items => negb (Nat.eqb (List.length items) 0)
  | JDict fields => negb (Nat.eqb (List.length fields) 0)
  end.

Definition hex_digit (n : Z) : string :=
  PyStr.take 1 (PyStr.drop (Z.to_nat n) "0123456789abcdef").

Definition printable (c : ascii) : bool :=
  let n := PyStr.code c in
  ((32 <=? n) && (n <=? 126)) || ((161 <=? n) && negb (n =? 173)).

Definition double_quote : ascii := ascii_of_nat 34.

Definition escape_char (quote c : ascii) : string :=
  let n := PyStr.code c in
  if (Ascii.eqb c quote) || (n =? 92) then String "\" (String c "")
  else if n =? 9 then "\t"
  else if n =? 10 then "\n"
  else if n =? 13 then "\r"
  else if printable c then String c ""
  else "\x" ++ hex_digit (n / 16) ++ hex_digit (n mod 16).

Fixpoint escape (quote : ascii) (s : string) : string :=
  match s with
  | "" => ""
  | String c s' => escape_char quote c ++ escape quote s'
  end.

(** [repr(s)] for a string: single quotes, unless the string holds a
    single quote and no double quote *)
Definition str_repr (s : string) : string :=
  let quote :=
    if PyStr.contains "'" s && negb (PyStr.contains (String double_quote "") s)
    then double_quote else "'"%char in
  String quote (escape quote s) ++ String quote "".

Fixpoint repr (v : json) : string :=
  match v with
  | JNull => "None"
  | JBool b => if b then "True" else "False"
  | JInt z => PyNum.str_of_Z z
  | JFloat x => PyNum.float_repr x
  | JStr s => str_repr s
  | JList items => "[" ++ PyStr.join ", " (map repr items) ++ "]"
  | JDict fields =>
      "{" ++ PyStr.join ", "
               (map (fun kv => str_repr (fst kv) ++ ": " ++ repr (snd kv)) fields)
          ++ "}"
  end.

(** [str(v)], which an f-string applies to a value without format spec *)
Definition str (v : json) : string :=
  match v with
  | JStr s => s
  | _ => repr v
  end.

(** [k in v] for a string [k] *)
Definition contains (k : string) (v : json) : result bool :=
  match v with
  | JDict fields => Ok (has_key k fields)
  | JList items =>
      Ok (existsb (fun x => match x with JStr s => String.eqb s k | _ => false end) items)
  | JStr s => Ok (PyStr.contains k s)
  | _ => Raise TypeError
  end.

(** [v[k]] for a string [k] *)
Definition getitem (v : json) (k : string) : result json :=
  match v with
  | JDict fields =>
      match lookup k fields with
      | Some x => Ok x
      | None => Raise KeyError
      end
  | _ => Raise TypeError
  end.

(** [v[0]] *)
Definition getitem0 (v : json) : result json :=
  match v with
  | JList (x :: _) => Ok x
  | JList [] => Raise IndexError
  | JStr (String c _) => Ok (JStr (String c ""))
  | JStr "" => Raise IndexError
  | JDict _ => Raise KeyError
  | _ => Raise TypeError
  end.

(** [v.get(k, default)] *)
Definition get (v : json) (k : string) (default : json) : result json :=
  match v with
  | JDict fields =>
      match lookup k fields with
      | Some x => Ok x
      | None => Ok default
      end
  | _ => Raise AttributeError
  end.

(** [list(v.keys())] *)
Definition keys (v : json) : result (list string) :=
  match v with
  | JDict fields => Ok (dict_keys fields)
  | _ => Raise AttributeError
  end.

(** [len(v)] *)
Definition len (v : json) : result nat :=
  match v with
  | JStr s => Ok (String.length s)
  | JList items => Ok (List.length items)
  | JDict fields => Ok (List.length fields)
  | _ => Raise TypeError
  end.

Fixpoint chars (s : string) : list json :=
  match s with
  | "" => []
  | String c s' => JStr (String c "") :: chars s'
  end.

(** the items a [for] loop over [v] visits *)
Definition iter (v : json) : result (list json) :=
  match v with
  | JList items => Ok items
  | JStr s => Ok (chars s)
  | JDict fields => Ok (map JStr (dict_keys fields))
  | _ => Raise TypeError
  end.

(** [v[:n]]; slicing a [dict] raises ([TypeError] up to Python 3.11,
    [KeyError] from 3.12 on; the embedding follows the former) *)
Definition slice_to (n : nat) (v : json) : result json :=
  match v with
  | JStr s => Ok (JStr (PyStr.take n s))
  | JList items => Ok (JList (firstn n items))
  | _ => Raise TypeError
  end.

(** [v + s] for a string [s] *)
Definition add_str (v : json) (s : string) : result json :=
  match v with
  | JStr t => Ok (JStr (t ++ s))
  | _ => Raise TypeError
  end.

(** [f"{v:.3f}"] *)
Definition format_3f (v : json) : result string :=
  match v with
  | JFloat x => Ok (PyNum.float_format_3f x)
  | JInt z =>
      match PyNum.int_format_3f z with
      | Some s => Ok s
      | None => Raise OverflowError
      end
  | JBool b => Ok (if b then "1.000" else "0.000")
  | JStr _ => Raise FormatCodeError
  | _ => Raise TypeError
  end.

(** [sep.join(items)]: every item must be a [str] *)
Fixpoint strings (items : list json) : result (list string) :=
  match items with
  | [] => Ok []
  | JStr s :: rest => r <- strings rest ;; Ok (s :: r)
  | _ :: _ => Raise TypeError
  end.
Definition join (sep : string) (items : list json) : result string :=
  l <- strings items ;; Ok (PyStr.join sep l).

End Py.

(** ** The HTTP client

    [client.get(url, params=params)] is an oracle from the request to what
    came back; a tool returns the requests it sent together with its
    result, so that "no network call" is a statement about the trace. *)

Inductive param : Type :=
  | PStr (s : string)
  | PInt (z : Z)
  | PFloat (x : float).

Definition params : Type := list (string * param).

Fixpoint param_of (k : string) (p : params) : option param :=
  match p with
  | [] => None
  | (k', v) :: rest => if String.eqb k k' then Some v else param_of k rest
  end.

(** [params[k] = v] *)
Fixpoint set_param (k : string) (v : param) (p : params) : params :=
  match p with
  | [] => [(k, v)]
  | (k', v') :: rest =>
      if String.eqb k k' then (k', v) :: rest else (k', v') :: set_param k v rest
  end.

Record request : Type := { req_url : string; req_params : params }.

(** [json_body] is [None] when the body is not JSON. *)
Record response : Type := { status_code : Z; json_body : option json }.

Inductive reply : Type :=
  | NoResponse             (* timeout, connection refused, ... *)
  | Response (r : response).

Definition await_get (rep : reply) : result response :=
  match rep with
  | NoResponse => Raise TransportError
  | Response r => Ok r
  end.

(** [response.raise_for_status()] of httpx: every status outside 200..299
    raises [HTTPStatusError]. *)
Definition raise_for_status (r : response) : result unit :=
  if (200 <=? status_code r) && (status_code r <=? 299) then Ok tt
  else Raise (HTTPStatusError (status_code r)).

(** [response.json()] *)
Definition response_json (r : response) : result json :=
  match json_body r with
  | Some data => Ok data
  | None => Raise JSONDecodeError
  end.

Definition DQL_ENDPOINT : string := "https://api.diffbot.com/v3/search".

(** What a tool call did: the requests sent, and the value returned or the
    exception raised. *)
Definition run : Type := list request * result string.

Definition sent (r : run) : list request := fst r.
Definition outcome (r : run) : result string := snd r.

(** ** [dql_search]: formatting the response (source lines 93-112) *)

Definition line (label text : string) : string :=
  "  " ++ label ++ ": " ++ text ++ nl.

(** The body of the [for i, obj in enumerate(..., 1)] loop. *)
Definition dql_result (i : nat) (obj : json) : result string :=
  title <- Py.get obj "title" (JStr "N/A") ;;
  pageUrl <- Py.get obj "pageUrl" (JStr "N/A") ;;
  type <- Py.get obj "type" (JStr "N/A") ;;
  date <- Py.get obj "date" (JStr "N/A") ;;
  let block :=
    "Result " ++ PyNum.str_of_nat i ++ ":" ++ nl
      ++ line "Title" (Py.str title)
      ++ line "URL" (Py.str pageUrl)
      ++ line "Type" (Py.str type)
      ++ line "Date" (Py.str date) in
  present <- Py.get obj "text" JNull ;;
  if Py.truthy present then
    t <- Py.getitem obj "text" ;;
    n <- Py.len t ;;
    text <- (if (300 <? n)%nat
             then (t' <- Py.getitem obj "text" ;;
                   cut <- Py.slice_to 300 t' ;;
                   Py.add_str cut "...")
             else Py.getitem obj "text") ;;
    Ok (block ++ line "Text" (Py.str text) ++ nl)
  else Ok (block ++ nl).

Fixpoint dql_results (i : nat) (objs : list json) : result string :=
  match objs with
  | [] => Ok ""
  | obj :: rest =>
      block <- dql_result i obj ;;
      blocks <- dql_results (S i) rest ;;
      Ok (block ++ blocks)
  end.

Definition dql_format (query : string) (start : Z) (data : json) : result string :=
  hits <- Py.get data "hits" (JInt 0) ;;
  objects <- Py.get data "objects" (JList []) ;;
  n <- Py.len objects ;;
  let result_text :=
    "DQL Search Results for: " ++ query ++ nl
      ++ "Total results: " ++ Py.str hits ++ nl
      ++ "Showing " ++ PyNum.str_of_Z (start + 1) ++ "-"
      ++ PyNum.str_of_Z (start + Z.of_nat n) ++ nl ++ nl in
  objects' <- Py.get data "objects" (JList []) ;;
  objs <- Py.iter objects' ;;
  blocks <- dql_results 1 objs ;;
  Ok (result_text ++ blocks).

(** ** [enhance_entity]: formatting the response (source lines 213-422) *)

(** [k in v and v[k]], as a condition *)
Definition key_truthy (k : string) (v : json) : result bool :=
  present <- Py.contains k v ;;
  if present then (x <- Py.getitem v k ;; Ok (Py.truthy x)) else Ok false.

(** The three debugging [print] calls: the lines they write to standard
    output.  They are evaluated before any formatting. *)
Definition debug_prints (data : json) : result (list string) :=
  ks <- Py.keys data ;;
  let l1 := "DEBUG - Full response keys: " ++ Py.repr (JList (map JStr ks)) in
  present <- Py.contains "data" data ;;
  if present then
    d <- Py.getitem data "data" ;;
    n <- Py.len d ;;
    let l2 := "DEBUG - Data length: " ++ PyNum.str_of_nat n in
    if Py.truthy d then
      first <- Py.getitem0 d ;;
      fks <- Py.keys first ;;
      Ok [l1; l2; "DEBUG - First entity keys: " ++ Py.repr (JList (map JStr fks))]
    else Ok [l1; l2]
  else Ok [l1].

(** "Handle different possible response structures" *)
Definition select_entities (data : json) : result json :=
  in_data <- key_truthy "data" data ;;
  if in_data then Py.getitem data "data"
  else
    in_results <- key_truthy "results" data ;;
    if in_results then Py.getitem data "results"
    else
      match data with
      | JList _ => Ok data
      | _ => Ok (JList [])
      end.

(** [for field in fields: if field in entity: ... entity[field] ...; break] *)
Fixpoint first_in (fields : list string) (entity : dict) : option json :=
  match fields with
  | [] => None
  | field :: rest =>
      match lookup field entity with
      | Some v => Some v
      | None => first_in rest entity
      end
  end.

(** [for field in fields: if field in entity and entity[field]: ...; break] *)
Fixpoint first_truthy_in (fields : list string) (entity : dict) : option json :=
  match fields with
  | [] => None
  | field :: rest =>
      match lookup field entity with
      | Some v => if Py.truthy v then Some v else first_truthy_in rest entity
      | None => first_truthy_in rest entity
      end
  end.

Definition score_line (m : json) : result string :=
  present <- Py.contains "score" m ;;
  if present then
    score <- Py.getitem m "score" ;;
    text <- Py.format_3f score ;;
    Ok (line "Confidence Score" text)
  else Ok "".

Definition errors_line (m : json) : result string :=
  cond <- key_truthy "errors" m ;;
  if cond then (errors <- Py.getitem m "errors" ;; Ok (line "Errors" (Py.str errors)))
  else Ok "".

(** "Location can be in different formats" (Organization branch) *)
Definition org_location (entity : dict) : result string :=
  match lookup "location" entity with
  | Some location =>
      match location with
      | JDict d =>
          match lookup "name" d with
          | Some name => Ok (line "Location" (Py.str name))
          | None => Ok ""
          end
      | JStr s => Ok (line "Location" s)
      | _ => Ok ""
      end
  | None =>
      match lookup "locations" entity with
      | Some locations =>
          if Py.truthy locations then
            loc <- Py.getitem0 locations ;;
            match loc with
            | JDict d =>
                match lookup "name" d with
                | Some name => Ok (line "Location" (Py.str name))
                | None => Ok ""
                end
            | JStr s => Ok (line "Location" s)
            | _ => Ok ""
            end
          else Ok ""
      | None => Ok ""
      end
  end.

Definition website_fields : list string := ["homepageUri"; "website"; "url"; "homepage"].
Definition revenue_fields : list string := ["revenue"; "annualRevenue"; "yearlyRevenue"].
Definition employee_fields : list (string * string) :=
  [("nbEmployeesMin", "nbEmployeesMax");
   ("employeesMin", "employeesMax");
   ("employeeCountMin", "employeeCountMax")].
Definition industry_fields : list string := ["industry"; "industries"; "category"; "categories"].
Definition desc_fields : list string := ["description"; "summary"; "about"].

Definition get_or (k : string) (default : json) (entity : dict) : json :=
  match lookup k entity with
  | Some v => v
  | None => default
  end.

(** The [for min_field, max_field in employee_fields] loop: the range
    branch ends the loop, the [elif 'nbEmployees' in entity] branch does
    not. *)
Fixpoint employees (pairs : list (string * string)) (entity : dict) : string :=
  match pairs with
  | [] => ""
  | (min_field, max_field) :: rest =>
      if has_key min_field entity || has_key max_field entity then
        let min_emp := get_or min_field (JStr "N/A") entity in
        let max_emp := get_or max_field (JStr "N/A") entity in
        line "Employees" (Py.str min_emp ++ " - " ++ Py.str max_emp)
      else
        match lookup "nbEmployees" entity with
        | Some nb => line "Employees" (Py.str nb) ++ employees rest entity
        | None => employees rest entity
        end
  end.

Definition industry (entity : dict) : result string :=
  match first_in industry_fields entity with
  | Some (JList items) => joined <- Py.join ", " items ;; Ok (line "Industry" joined)
  | Some v => Ok (line "Industry" (Py.str v))
  | None => Ok ""
  end.

Definition description (entity : dict) : string :=
  match first_in desc_fields entity with
  | Some v =>
      let desc := Py.str v in
      let desc := if (200 <? String.length desc)%nat
                  then PyStr.take 200 desc ++ "..." else desc in
      line "Description" desc
  | None => ""
  end.

Definition labelled (label : string) (found : option json) : string :=
  match found with
  | Some v => line label (Py.str v)
  | None => ""
  end.

Definition organization (entity : dict) : result string :=
  let website := labelled "Website" (first_in website_fields entity) in
  location <- org_location entity ;;
  let revenue := labelled "Revenue" (first_in revenue_fields entity) in
  let staff := employees employee_fields entity in
  sector <- industry entity ;;
  Ok (website ++ location ++ revenue ++ staff ++ sector ++ description entity).

(** The same location code, as the Person branch repeats it. *)
Definition person_location (entity : dict) : result string :=
  match lookup "location" entity with
  | Some location =>
      match location with
      | JDict d =>
          match lookup "name" d with
          | Some name => Ok (line "Location" (Py.str name))
          | None => Ok ""
          end
      | JStr s => Ok (line "Location" s)
      | _ => Ok ""
      end
  | None =>
      match lookup "locations" entity with
      | Some locations =>
          if Py.truthy locations then
            loc <- Py.getitem0 locations ;;
            match loc with
            | JDict d =>
                match lookup "name" d with
                | Some name => Ok (line "Location" (Py.str name))
                | None => Ok ""
                end
            | JStr s => Ok (line "Location" s)
            | _ => Ok ""
            end
          else Ok ""
      | None => Ok ""
      end
  end.

Definition employment_fields : list string :=
  ["employments"; "employment"; "jobs"; "currentEmployment"].
Definition title_fields : list string := ["title"; "position"; "role"].
Definition education_fields : list string := ["educations"; "education"; "schools"].

(** "Employment information" *)
Definition employment (entity : dict) : result string :=
  match first_truthy_in employment_fields entity with
  | Some v =>
      current_job <- match v with
                     | JList _ => Py.getitem0 v   (* most recent employment *)
                     | _ => Ok v
                     end ;;
      match current_job with
      | JDict job =>
          let employer :=
            match lookup "employer" job with
            | Some (JDict e) =>
                match lookup "name" e with
                | Some name => line "Current Employer" (Py.str name)
                | None => ""
                end
            | Some (JStr s) => line "Current Employer" s
            | _ => ""
            end in
          Ok (employer ++ labelled "Title" (first_in title_fields job))
      | _ => Ok ""
      end
  | None => Ok ""
  end.

(** What one entry of the education list adds to [schools]. *)
Definition school_of (edu : json) : list json :=
  match edu with
  | JDict e =>
      match lookup "institution" e with
      | Some (JDict inst) =>
          match lookup "name" inst with
          | Some name => [name]
          | None =>
              match lookup "school" e with
              | Some s => [JStr (Py.str s)]
              | None => match lookup "name" e with Some n => [n] | None => [] end
              end
          end
      | _ =>
          match lookup "school" e with
          | Some s => [JStr (Py.str s)]
          | None => match lookup "name" e with Some n => [n] | None => [] end
          end
      end
  | _ => []
  end.

(** "Education information" *)
Definition education (entity : dict) : result string :=
  match first_truthy_in education_fields entity with
  | Some (JList items) =>
      let schools := flat_map school_of (firstn 2 items) in   (* first 2 schools *)
      match schools with
      | [] => Ok ""
      | _ => joined <- Py.join ", " schools ;; Ok (line "Education" joined)
      end
  | _ => Ok ""
  end.

Definition person (entity : dict) : result string :=
  location <- person_location entity ;;
  job <- employment entity ;;
  schools <- education entity ;;
  Ok (location ++ job ++ schools).

(** "Common fields for both types" *)
Definition uri_fields : list string := ["diffbotUri"; "uri"; "id"; "diffbotId"].

Definition social_mappings : list (string * string) :=
  [("twitterUri", "Twitter"); ("twitter", "Twitter"); ("twitterUrl", "Twitter");
   ("linkedInUri", "LinkedIn"); ("linkedin", "LinkedIn"); ("linkedinUri", "LinkedIn");
   ("linkedInUrl", "LinkedIn");
   ("facebookUri", "Facebook"); ("facebook", "Facebook"); ("facebookUrl", "Facebook")].

Fixpoint social_links (mappings : list (string * string)) (entity : dict) : list string :=
  match mappings with
  | [] => []
  | (field, platform) :: rest =>
      match lookup field entity with
      | Some v =>
          if Py.truthy v
          then (platform ++ ": " ++ Py.str v) :: social_links rest entity
          else social_links rest entity
      | None => social_links rest entity
      end
  end.

Definition social (entity : dict) : string :=
  match social_links social_mappings entity with
  | [] => ""
  | links => line "Social Media" (PyStr.join ", " links)
  end.

Definition interesting_fields : list string :=
  ["founded"; "foundedYear"; "ticker"; "stock"; "ceo"; "headquarters"].

Definition field_name (field : string) : string :=
  PyStr.replace "headquarters" "Headquarters"
    (PyStr.replace "ceo" "CEO"
       (PyStr.replace "ticker" "Stock Ticker"
          (PyStr.replace "foundedYear" "Founded" field))).

Fixpoint interesting (fields : list string) (entity : dict) : string :=
  match fields with
  | [] => ""
  | field :: rest =>
      match lookup field entity with
      | Some v =>
          if Py.truthy v
          then line (PyStr.title (field_name field)) (Py.str v) ++ interesting rest entity
          else interesting rest entity
      | None => interesting rest entity
      end
  end.

Definition common (entity : dict) : string :=
  labelled "Diffbot URI" (first_in uri_fields entity)
    ++ social entity
    ++ interesting interesting_fields entity.

(** The lines that follow "Entity fields:" for one match. *)
Definition attributes (type : string) (entity : dict) : result string :=
  let name := labelled "Name" (lookup "name" entity) in
  specific <- (if String.eqb type "Organization"
               then organization entity else person entity) ;;
  Ok (name ++ specific ++ common entity).

Definition divider (i : nat) : string :=
  if (1 <? i)%nat then nl ++ PyStr.repeat "-" 40 ++ nl ++ nl else "".

Definition entity_fields (entity : dict) : string :=
  "  Entity fields: " ++ Py.repr (JList (map JStr (dict_keys entity))) ++ nl.

Definition no_entity_note : string := "  No entity data found in this match." ++ nl.

(** The body of [for i, match in enumerate(entities, 1)]: the text one
    match adds to [result_text]. *)
Definition match_heading (i : nat) : string :=
  divider i ++ "Match #" ++ PyNum.str_of_nat i ++ ":" ++ nl.

Definition format_match (type : string) (i : nat) (m : json) : result string :=
  let head := match_heading i in
  score <- score_line m ;;
  errors <- errors_line m ;;
  entity <- Py.get m "entity" (JDict []) ;;
  if negb (Py.truthy entity) then
    Ok (head ++ score ++ errors ++ no_entity_note)       (* continue *)
  else
    match entity with
    | JDict fields =>
        lines <- attributes type fields ;;
        Ok (head ++ score ++ errors ++ entity_fields fields ++ lines ++ nl)
    | _ => Raise AttributeError                          (* entity.keys() *)
    end.

Fixpoint format_matches (type : string) (i : nat) (entities : list json)
  : result string :=
  match entities with
  | [] => Ok ""
  | m :: rest =>
      text <- format_match type i m ;;
      more <- format_matches type (S i) rest ;;
      Ok (text ++ more)
  end.

Definition entity_type_of (type : string) : string :=
  if String.eqb type "Organization" then "Organization" else "Person".

Definition banner (type : string) : string :=
  "Enhanced " ++ entity_type_of type ++ " Data:" ++ nl
    ++ PyStr.repeat "=" 50 ++ nl ++ nl.

Definition not_found (type : string) : string :=
  "No " ++ PyStr.lower (entity_type_of type)
        ++ " found matching the provided criteria." ++ nl
    ++ "Try:" ++ nl
    ++ "- Adding more input parameters (location, url, etc.)" ++ nl
    ++ "- Lowering the threshold parameter" ++ nl
    ++ "- Using search=True to search beyond the Knowledge Graph" ++ nl.

(** The text before the final [strip()]. *)
Definition enhance_text (type : string) (data : json) : result string :=
  _ <- debug_prints data ;;
  entities <- select_entities data ;;
  if Py.truthy entities then
    items <- Py.iter entities ;;
    matches <- format_matches type 1 items ;;
    Ok (banner type ++ matches)
  else Ok (banner type ++ not_found type).

Definition enhance_format (type : string) (data : json) : result string :=
  result_text <- enhance_text type data ;;
  Ok (PyStr.strip result_text).

(** ** The two tools *)

(** The arguments of [enhance_entity]; [None] is Python's [None]. *)
Module Args.
Record t : Type := make {
  type : string;
  name : option string;
  url : option string;
  location : option string;
  phone : option string;
  employer : option string;
  title : option string;
  school : option string;
  ip : option string;
  id : option string;
  threshold : option float;
  size : Z;
  refresh : bool;
  search : bool
}.

(** a call that passes [type] only: every other parameter at its default *)
Definition default (type : string) : t :=
  make type None None None None None None None None None None 1 false false.
End Args.

(** [bool(x)] for an optional string argument *)
Definition given (x : option string) : bool :=
  match x with
  | Some s => negb (String.length s =? 0)%nat
  | None => false
  end.

(** "Validate required parameters" and "Check minimum requirements" *)
Definition validate_enhance (a : Args.t) : result unit :=
  if negb (existsb (String.eqb (Args.type a)) ["Person"; "Organization"]) then
    Raise (ValueError "type must be either 'Person' or 'Organization'")
  else if String.eqb (Args.type a) "Organization"
          && negb (given (Args.name a) || given (Args.url a)) then
    Raise (ValueError "For Organizations, either 'name' or 'url' is required")
  else if String.eqb (Args.type a) "Person" && negb (given (Args.name a)) then
    Raise (ValueError "For Persons, 'name' is required")
  else Ok tt.

Definition input_params (a : Args.t) : list (string * option string) :=
  [("name", Args.name a); ("url", Args.url a); ("location", Args.location a);
   ("phone", Args.phone a); ("employer", Args.employer a); ("title", Args.title a);
   ("school", Args.school a); ("ip", Args.ip a); ("id", Args.id a)].

(** [for key, value in input_params.items(): if value is not None: params[key] = value] *)
Fixpoint add_inputs (inputs : list (string * option string)) (p : params) : params :=
  match inputs with
  | [] => p
  | (key, Some value) :: rest => add_inputs rest (set_param key (PStr value) p)
  | (_, None) :: rest => add_inputs rest p
  end.

Definition enhance_url : string := "https://kg.diffbot.com/kg/v3/enhance".

Section Tools.

(** The token read from the environment when the module is loaded, and
    the shared HTTP client. *)
Variable DIFFBOT_TOKEN : string.
Variable client_get : request -> reply.

Definition dql_params (query : string) (num start : Z) : params :=
  [("token", PStr DIFFBOT_TOKEN); ("query", PStr query);
   ("num", PInt num); ("start", PInt start); ("format", PStr "json")].

Definition dql_search (query : string) (num start : Z) : run :=
  if (num <? 1) || (100 <? num) then
    ([], Raise (ValueError "num must be between 1 and 100"))
  else if start <? 0 then
    ([], Raise (ValueError "start must be >= 0"))
  else
    let req := {| req_url := DQL_ENDPOINT; req_params := dql_params query num start |} in
    let body :=
      response <- await_get (client_get req) ;;
      _ <- raise_for_status response ;;
      data <- response_json response ;;
      dql_format query start data in
    ([req],
     match body with
     | Ok text => Ok text
     | Raise e =>
         if is_http_error e
         then Raise (Exception "HTTP error during DQL search: " e)
         else Raise e
     end).

(** "Build parameters" *)
Definition enhance_params (a : Args.t) : params :=
  let params := [("token", PStr DIFFBOT_TOKEN); ("type", PStr (Args.type a))] in
  let params := add_inputs (input_params a) params in
  let params := match Args.threshold a with
                | Some t => set_param "threshold" (PFloat t) params
                | None => params
                end in
  let params := if negb (Args.size a =? 1)
                then set_param "size" (PInt (Args.size a)) params else params in
  let params := if Args.refresh a
                then set_param "refresh" (PStr "true") params else params in
  if Args.search a then set_param "search" (PStr "true") params else params.

Definition enhance_entity (a : Args.t) : run :=
  match validate_enhance a with
  | Raise e => ([], Raise e)
  | Ok _ =>
      let req := {| req_url := enhance_url; req_params := enhance_params a |} in
      let body :=
        response <- await_get (client_get req) ;;
        _ <- raise_for_status response ;;
        data <- response_json response ;;
        enhance_format (Args.type a) data in
      ([req],
       match body with
       | Ok text => Ok text
       | Raise e =>
           if is_http_error e then
             Raise (Exception "HTTP error during entity enhancement: " e)
           else
             match e with
             | KeyError =>
                 Raise (Exception "Unexpected response format from Diffbot API: " e)
             | _ => Raise (Exception "Error enhancing entity: " e)
             end
       end)
  end.

End Tools.

(** ** Start-up (source lines 49-52)

    [os.getenv('DIFFBOT_TOKEN')] is [None] when the variable is not set;
    the module refuses to load without a non-empty token. *)
Definition load_token (env : option string) : result string :=
  match env with
  | Some token =>
      if negb (String.length token =? 0)%nat then Ok token
      else Raise (ValueError "DIFFBOT_TOKEN environment variable is required")
  | None => Raise (ValueError "DIFFBOT_TOKEN environment variable is required")
  end.

(** ** The simplified wrappers (source lines 432-474) *)

Section Wrappers.

Variable DIFFBOT_TOKEN : string.
Variable client_get : request -> reply.

Definition enhance_organization (name url location : option string) : run :=
  enhance_entity DIFFBOT_TOKEN client_get
    (Args.make "Organization" name url location None None None None None None
               None 1 false false).

(** [name] is a required [str] here. *)
Definition enhance_person (name : string) (employer title location : option string)
  : run :=
  enhance_entity DIFFBOT_TOKEN client_get
    (Args.make "Person" (Some name) None location None employer title None None None
               None 1 false false).

End Wrappers.

(** one optional entry of a parameter mapping *)
Definition optional (key : string) (value : option string) : params :=
  match value with
  | Some v => [(key, PStr v)]
  | None => []
  end.

(** ** Example replies and requests *)

(** A client that answers every request with the given status and body. *)
Definition answers (status : Z) (body : option json) : request -> reply :=
  fun _ => Response {| status_code := status; json_body := body |}.

Definition acme_request : Args.t :=
  Args.make "Organization" (Some "Acme") None None None None None None None None
            None 1 false false.



(** [{"data": [{"entity": {"name": "Acme", "nbEmployees": 50}}]}] *)
Definition headcount_body : json :=
  JDict [("data", JList [JDict [("entity",
            JDict [("name", JStr "Acme"); ("nbEmployees", JInt 50)])]])].




(** [{"data": [{"entity": {"name": "Acme", "website": "acme.com"}},
               {"score": 0.25}]}] and the text returned for it *)
Definition acme_match : dict :=
  [("entity", JDict [("name", JStr "Acme"); ("website", JStr "acme.com")])].
Definition bare_match : dict := [("score", JFloat 0.25)].
Definition two_matches_body : json :=
  JDict [("data", JList [JDict acme_match; JDict bare_match])].
Definition two_matches_text : string :=
  Eval vm_compute in
    match enhance_format "Organization" two_matches_body with
    | Ok text => text
    | Raise _ => ""
    end.

Definition two_matches_raw : string :=
  Eval vm_compute in
    match format_matches "Organization" 1 [JDict acme_match; JDict bare_match] with
    | Ok text => text
    | Raise _ => ""
    end.

(** ** The search report, as the specification words it


    A header with the query, the hit total (0 when absent) and the range
    shown, then one block per record: title, URL, type and date, each
    "N/A" when absent, and an excerpt of the text, cut to 300 characters
    with "..." when it is longer. *)











(** ** The matches that [enhance_entity] formats without error

    The shapes that the source reads without a type test: the score is
    formatted as a number, a non-empty entity is asked for its keys, a
    [locations] value is indexed, an industry list and the school names
    are joined as strings.  Everything else in a match is read behind
    [isinstance] tests or printed with [str]. *)

Definition numeric (v : json) : bool :=
  match v with
  | JFloat _ | JBool _ => true
  | JInt z =>
      match PyNum.float_of_int z with
      | Some _ => true
      | None => false
      end
  | _ => false
  end.

Definition is_string (v : json) : bool :=
  match v with
  | JStr _ => true
  | _ => false
  end.

(** [v[0]] can be taken whenever [v] is true *)
Definition indexable (v : json) : bool :=
  match v with
  | JList _ | JStr _ => true
  | _ => negb (Py.truthy v)
  end.

Definition location_ok (entity : dict) : bool :=
  has_key "location" entity
  || match lookup "locations" entity with
     | Some v => indexable v
     | None => true
     end.

Definition entity_ok (type : string) (entity : dict) : bool :=
  location_ok entity
  && (if String.eqb type "Organization" then
        match first_in industry_fields entity with
        | Some (JList items) => forallb is_string items
        | _ => true
        end
      else
        match first_truthy_in education_fields entity with
        | Some (JList items) => forallb is_string (flat_map school_of (firstn 2 items))
        | _ => true
        end).

Definition match_ok (type : string) (m : json) : bool :=
  match m with
  | JDict fields =>
      match lookup "score" fields with
      | Some score => numeric score
      | None => true
      end
      && match lookup "entity" fields with
         | Some (JDict entity) => entity_ok type entity
         | Some v => negb (Py.truthy v)
         | None => true
         end
  | _ => false
  end.

(** The match list of a body whose [data] and [results], when present, are
    arrays: [data] if it is not empty, else [results]. *)
Definition match_list (body : dict) : option (list json) :=
  match lookup "data" body with
  | Some (JList (m :: ms)) => Some (m :: ms)
  | Some (JList []) | None =>
      match lookup "results" body with
      | Some (JList ms) => Some ms
      | None => Some []
      | Some _ => None
      end
  | Some _ => None
  end.


(** ** Theorems *)

Lemma bind_ok {A B : Type} (a : A) (k : A -> result B) : bind (Ok a) k = k a.
Proof. reflexivity. Qed.

Lemma bind_raise {A B : Type} (e : exn) (k : A -> result B) : bind (Raise e) k = Raise e.
Proof. reflexivity. Qed.

Lemma Ok_inj {A : Type} (a b : A) : Ok a = Ok b -> a = b.
Proof. intros H. injection H as H. exact H. Qed.

(** from [H : Ok t = Ok x] for a variable [x]: replace [x] by [t] *)
Ltac ok_inv H := apply Ok_inj in H; subst.

Ltac bind_inv H :=
  match type of H with
  | bind ?r _ = Ok _ =>
      let E := fresh "E" in
      destruct r eqn:E;
      [ rewrite bind_ok in H; cbv beta in H
      | rewrite bind_raise in H; discriminate H ]
  end.

(** C2 (the code departs from the claim): an Organization entity that
    carries [nbEmployees] and none of the three min/max pairs gets the
    'Employees:' line once per pair tried, three times in all, because the
    fallback branch sits inside the loop and does not end it. *)
Theorem employees_fallback_repeated :
  outcome (enhance_entity "token" (answers 200 (Some headcount_body)) acme_request)
  = Ok (String.concat nl
          ["Enhanced Organization Data:";
           PyStr.repeat "=" 50;
           "";
           "Match #1:";
           "  Entity fields: ['name', 'nbEmployees']";
           "  Name: Acme";
           "  Employees: 50";
           "  Employees: 50";
           "  Employees: 50"]).
Proof. vm_compute. reflexivity. Qed.

(** C7 (the code departs from the claim): a body that is itself a list,
    here the empty list, never reaches the match-list lookup; the debugging
    print of [data.keys()] raises and the call fails. *)
Theorem list_body_raises :
  outcome (enhance_entity "token" (answers 200 (Some (JList []))) acme_request)
  = Raise (Exception "Error enhancing entity: " AttributeError).
Proof. reflexivity. Qed.

(** C3: at status 401 and at status 500 both tools raise an exception of
    the same class, the plain [Exception]; no kind is kept for 401. *)
Lemma unauthorized_same_class :
  (exists e401 e500,
      outcome (dql_search "token" (answers 401 None) "type:article" 10 0) = Raise e401
      /\ outcome (dql_search "token" (answers 500 None) "type:article" 10 0) = Raise e500
      /\ class_of e401 = class_of e500)
  /\ (exists e401 e500,
      outcome (enhance_entity "token" (answers 401 None) acme_request) = Raise e401
      /\ outcome (enhance_entity "token" (answers 500 None) acme_request) = Raise e500
      /\ class_of e401 = class_of e500).
Proof.
  split; eexists; eexists; (split; [reflexivity | split; reflexivity]).
Qed.

(** C3, as the code has it: for every response whose status is outside
    200..299, 401 included, each tool raises a plain [Exception] whose
    message is the tool's "HTTP error during ..." prefix followed by the
    text of the client's status error; the status shows in that text only.
    A request that gets no response is reported the same way. *)
Theorem http_failure_is_generic
  (token : string) (client_get : request -> reply)
  (query : string) (num start : Z) (a : Args.t) :
  (forall r,
      1 <= num <= 100 -> 0 <= start ->
      client_get {| req_url := DQL_ENDPOINT;
                    req_params := dql_params token query num start |} = Response r ->
      ~ (200 <= status_code r <= 299) ->
      outcome (dql_search token client_get query num start)
      = Raise (Exception "HTTP error during DQL search: "
                         (HTTPStatusError (status_code r))))
  /\ (forall r,
      validate_enhance a = Ok tt ->
      client_get {| req_url := enhance_url;
                    req_params := enhance_params token a |} = Response r ->
      ~ (200 <= status_code r <= 299) ->
      outcome (enhance_entity token client_get a)
      = Raise (Exception "HTTP error during entity enhancement: "
                         (HTTPStatusError (status_code r))))
  /\ (1 <= num <= 100 -> 0 <= start ->
      client_get {| req_url := DQL_ENDPOINT;
                    req_params := dql_params token query num start |} = NoResponse ->
      outcome (dql_search token client_get query num start)
      = Raise (Exception "HTTP error during DQL search: " TransportError))
  /\ (validate_enhance a = Ok tt ->
      client_get {| req_url := enhance_url;
                    req_params := enhance_params token a |} = NoResponse ->
      outcome (enhance_entity token client_get a)
      = Raise (Exception "HTTP error during entity enhancement: " TransportError)).
Proof.
  assert (status_fails : forall r, ~ (200 <= status_code r <= 299) ->
            raise_for_status r = Raise (HTTPStatusError (status_code r))).
  { intros r Hs. unfold raise_for_status.
    destruct ((200 <=? status_code r) && (status_code r <=? 299)) eqn:E; [ | reflexivity ].
    apply andb_true_iff in E. destruct E as [E1 E2].
    apply Z.leb_le in E1. apply Z.leb_le in E2. exfalso. apply Hs. lia. }
  assert (args_pass : 1 <= num <= 100 -> 0 <= start ->
            ((num <? 1) || (100 <? num) = false) /\ (start <? 0) = false).
  { intros Hn Hs. split.
    - apply orb_false_iff. split; apply Z.ltb_ge; lia.
    - apply Z.ltb_ge. lia. }
  repeat split.
  - intros r Hn Hs Hget Hstatus. unfold dql_search, outcome.
    destruct (args_pass Hn Hs) as [-> ->]. cbn [snd].
    rewrite Hget. cbn [await_get bind]. rewrite (status_fails r Hstatus). reflexivity.
  - intros r Hv Hget Hstatus. unfold enhance_entity, outcome.
    rewrite Hv. cbn [snd].
    rewrite Hget. cbn [await_get bind]. rewrite (status_fails r Hstatus). reflexivity.
  - intros Hn Hs Hget. unfold dql_search, outcome.
    destruct (args_pass Hn Hs) as [-> ->]. cbn [snd]. rewrite Hget. reflexivity.
  - intros Hv Hget. unfold enhance_entity, outcome.
    rewrite Hv. cbn [snd]. rewrite Hget. reflexivity.
Qed.

Lemma http_failure_is_generic_witness :
  outcome (dql_search "token" (answers 401 None) "type:article" 10 0)
  = Raise (Exception "HTTP error during DQL search: " (HTTPStatusError 401))
  /\ outcome (enhance_entity "token" (answers 401 None) acme_request)
     = Raise (Exception "HTTP error during entity enhancement: " (HTTPStatusError 401)).
Proof.
  pose proof (http_failure_is_generic "token" (answers 401 None) "type:article" 10 0
                acme_request) as [Hsearch [Henhance _]].
  split.
  - apply (Hsearch {| status_code := 401; json_body := None |}).
    + lia.
    + lia.
    + reflexivity.
    + simpl. lia.
  - apply (Henhance {| status_code := 401; json_body := None |}).
    + reflexivity.
    + reflexivity.
    + simpl. lia.
Defined.

(** C4: a [num] outside 1..100 or a negative [start] makes [dql_search]
    raise [ValueError] with no request sent; an Organization request with
    neither name nor url, and a Person request with no name, make
    [enhance_entity] raise [ValueError] with no request sent; an
    Organization request that supplies a name alone, or a url alone,
    passes validation and its request is sent. *)
Theorem invalid_arguments_rejected
  (token : string) (client_get : request -> reply) :
  (forall query num start,
      num < 1 \/ 100 < num \/ start < 0 ->
      exists msg,
        dql_search token client_get query num start = ([], Raise (ValueError msg)))
  /\ (forall a,
      (Args.type a = "Organization" /\ Args.name a = None /\ Args.url a = None)
      \/ (Args.type a = "Person" /\ Args.name a = None) ->
      exists msg,
        enhance_entity token client_get a = ([], Raise (ValueError msg)))
  /\ (forall a s,
      Args.type a = "Organization" -> s <> "" ->
      (Args.name a = Some s /\ Args.url a = None)
      \/ (Args.name a = None /\ Args.url a = Some s) ->
      validate_enhance a = Ok tt
      /\ sent (enhance_entity token client_get a)
         = [{| req_url := enhance_url; req_params := enhance_params token a |}]).
Proof.
  split; [ | split ].
  - intros query num start H. unfold dql_search.
    destruct ((num <? 1) || (100 <? num)) eqn:E.
    + eexists. reflexivity.
    + apply orb_false_iff in E. destruct E as [E1 E2].
      apply Z.ltb_ge in E1. apply Z.ltb_ge in E2.
      assert (Hs : (start <? 0) = true) by (apply Z.ltb_lt; lia).
      rewrite Hs. eexists. reflexivity.
  - intros a [[Ht [Hn Hu]] | [Ht Hn]]; unfold enhance_entity, validate_enhance;
      rewrite Ht, Hn; try rewrite Hu; cbn; eexists; reflexivity.
  - intros a s Ht Hs Hgiven.
    assert (Hv : validate_enhance a = Ok tt).
    { destruct Hgiven as [[Hn Hu] | [Hn Hu]]; unfold validate_enhance;
        rewrite Ht, Hn, Hu; destruct s; try congruence; reflexivity. }
    split; [ exact Hv | ].
    unfold enhance_entity. rewrite Hv. reflexivity.
Qed.

Lemma invalid_arguments_rejected_witness :
  (exists msg, dql_search "token" (answers 200 None) "type:article" 101 0
               = ([], Raise (ValueError msg)))
  /\ (exists msg, enhance_entity "token" (answers 200 None) (Args.default "Person")
                  = ([], Raise (ValueError msg)))
  /\ validate_enhance acme_request = Ok tt.
Proof.
  pose proof (invalid_arguments_rejected "token" (answers 200 None))
    as [Hsearch [Henhance Hpass]].
  split; [ | split ].
  - apply Hsearch. right. left. lia.
  - apply Henhance. right. split; reflexivity.
  - apply (Hpass acme_request "Acme").
    + reflexivity.
    + discriminate.
    + left. split; reflexivity.
Defined.

(** [params[k] = v] and a later read of the mapping *)
Lemma param_of_set_same k v p : param_of k (set_param k v p) = Some v.
Proof.
  induction p as [ | [k' v'] p IH]; simpl.
  - rewrite String.eqb_refl. reflexivity.
  - destruct (String.eqb k k') eqn:E; simpl; rewrite E; [ reflexivity | exact IH ].
Qed.

Lemma param_of_set_other k k' v p :
  k <> k' -> param_of k (set_param k' v p) = param_of k p.
Proof.
  intros Hne. induction p as [ | [k2 v2] p IH]; simpl.
  - destruct (String.eqb k k') eqn:E; [ apply String.eqb_eq in E; contradiction | reflexivity ].
  - destruct (String.eqb k' k2) eqn:E2; simpl.
    + apply String.eqb_eq in E2. subst k2.
      destruct (String.eqb k k') eqn:E; [ apply String.eqb_eq in E; contradiction | reflexivity ].
    + destruct (String.eqb k k2); [ reflexivity | exact IH ].
Qed.

Lemma add_inputs_other inputs : forall p k,
  ~ In k (map fst inputs) -> param_of k (add_inputs inputs p) = param_of k p.
Proof.
  induction inputs as [ | [key [value | ]] rest IH]; intros p k Hnot; simpl in *.
  - reflexivity.
  - rewrite IH by tauto. apply param_of_set_other. intros ->. tauto.
  - apply IH. tauto.
Qed.


Lemma input_params_keys a :
  map fst (input_params a)
  = ["name"; "url"; "location"; "phone"; "employer"; "title"; "school"; "ip"; "id"].
Proof. reflexivity. Qed.


Ltac read_params :=
  repeat first
    [ rewrite param_of_set_same
    | rewrite param_of_set_other by discriminate ].



(** Pieces of a text *)
Lemma append_nil_r (s : string) : s ++ "" = s.
Proof. induction s as [ | c s IH]; simpl; [ | rewrite IH ]; reflexivity. Qed.

Lemma append_assoc (a b c : string) : (a ++ b) ++ c = a ++ (b ++ c).
Proof. induction a as [ | x a IH]; simpl; [ | rewrite IH ]; reflexivity. Qed.

Lemma occurs_refl t : PyStr.occurs t t.
Proof. exists "", "". simpl. rewrite append_nil_r. reflexivity. Qed.

Lemma occurs_app_r t s post : PyStr.occurs t s -> PyStr.occurs t (s ++ post).
Proof.
  intros [a [b ->]]. exists a, (b ++ post).
  rewrite !append_assoc. reflexivity.
Qed.

Lemma occurs_app_l t s pre : PyStr.occurs t s -> PyStr.occurs t (pre ++ s).
Proof.
  intros [a [b ->]]. exists (pre ++ a), b.
  rewrite !append_assoc. reflexivity.
Qed.

Create HintDb pieces.
#[export] Hint Resolve occurs_refl occurs_app_r occurs_app_l : pieces.



Lemma success_passes r :
  200 <= status_code r <= 299 -> raise_for_status r = Ok tt.
Proof.
  intros [Hlo Hhi]. unfold raise_for_status.
  apply Z.leb_le in Hlo. apply Z.leb_le in Hhi. rewrite Hlo, Hhi. reflexivity.
Qed.

(** C9: the result of either tool is a function of its arguments and of
    the parsed body alone.  Two calls with the same arguments whose
    responses have a 2xx status and the same parsed body, made through any
    two clients and with any two tokens, end in the same way: the same
    text, character for character (or the same exception); and a text
    that is returned is the text the formatter computes from the arguments
    and the body.  Nothing else, no clock and no random source, enters
    it. *)
Theorem formatting_is_deterministic
  (token1 token2 : string) (client1 client2 : request -> reply)
  (r1 r2 : response) (body : json) :
  200 <= status_code r1 <= 299 ->
  200 <= status_code r2 <= 299 ->
  json_body r1 = Some body ->
  json_body r2 = Some body ->
  (forall req, client1 req = Response r1) ->
  (forall req, client2 req = Response r2) ->
  (forall query num start,
      outcome (dql_search token1 client1 query num start)
      = outcome (dql_search token2 client2 query num start)
      /\ (forall text,
            outcome (dql_search token1 client1 query num start) = Ok text ->
            dql_format query start body = Ok text))
  /\ (forall a,
      outcome (enhance_entity token1 client1 a)
      = outcome (enhance_entity token2 client2 a)
      /\ (forall text,
            outcome (enhance_entity token1 client1 a) = Ok text ->
            enhance_format (Args.type a) body = Ok text)).
Proof.
  intros Hs1 Hs2 Hb1 Hb2 Hc1 Hc2.
  assert (Hj1 : response_json r1 = Ok body) by (unfold response_json; rewrite Hb1; reflexivity).
  assert (Hj2 : response_json r2 = Ok body) by (unfold response_json; rewrite Hb2; reflexivity).
  split.
  - intros query num start. unfold dql_search, outcome.
    destruct ((num <? 1) || (100 <? num)); [ split; [ reflexivity | discriminate ] | ].
    destruct (start <? 0); [ split; [ reflexivity | discriminate ] | ].
    cbn [snd]. rewrite Hc1, Hc2. unfold await_get. rewrite !bind_ok.
    rewrite (success_passes r1 Hs1), (success_passes r2 Hs2), !bind_ok, Hj1, Hj2, !bind_ok.
    split; [ reflexivity | ].
    intros text. destruct (dql_format query start body) as [t | e].
    + trivial.
    + destruct (is_http_error e); discriminate.
  - intros a. unfold enhance_entity, outcome.
    destruct (validate_enhance a); [ | split; [ reflexivity | discriminate ] ].
    cbn [snd]. rewrite Hc1, Hc2. unfold await_get. rewrite !bind_ok.
    rewrite (success_passes r1 Hs1), (success_passes r2 Hs2), !bind_ok, Hj1, Hj2, !bind_ok.
    split; [ reflexivity | ].
    intros text. destruct (enhance_format (Args.type a) body) as [t | e].
    + trivial.
    + destruct (is_http_error e); [ discriminate | destruct e; discriminate ].
Qed.

Lemma formatting_is_deterministic_witness :
  outcome (dql_search "token" (answers 200 (Some headcount_body)) "type:article" 10 0)
  = outcome (dql_search "other" (answers 201 (Some headcount_body)) "type:article" 10 0)
  /\ outcome (enhance_entity "token" (answers 200 (Some headcount_body)) acme_request)
     = outcome (enhance_entity "other" (answers 201 (Some headcount_body)) acme_request).
Proof.
  destruct (formatting_is_deterministic "token" "other"
              (answers 200 (Some headcount_body)) (answers 201 (Some headcount_body))
              {| status_code := 200; json_body := Some headcount_body |}
              {| status_code := 201; json_body := Some headcount_body |}
              headcount_body)
    as [Hsearch Henhance].
  - simpl. lia.
  - simpl. lia.
  - reflexivity.
  - reflexivity.
  - intros req. reflexivity.
  - intros req. reflexivity.
  - split.
    + destruct (Hsearch "type:article" 10 0) as [Hsame _]. exact Hsame.
    + destruct (Henhance acme_request) as [Hsame _]. exact Hsame.

Defined.








(** *** What [strip()] keeps *)


Lemma rstrip_keeps s d post :
  PyStr.is_space d = false ->
  exists post', PyStr.rstrip (s ++ String d post) = s ++ String d post'.
Proof.
  intros Hd. induction s as [ | x s IH].
  - exists (PyStr.rstrip post). simpl.
    destruct (PyStr.rstrip post); [ rewrite Hd | ]; reflexivity.
  - destruct IH as [post' IH]. exists post'. simpl. rewrite IH.
    destruct s; reflexivity.
Qed.


(** *** The text of the k-th match inside the text of all matches *)







(** *** Which matches are formatted without error *)




Lemma first_truthy_in_truthy fields : forall entity v,
  first_truthy_in fields entity = Some v -> Py.truthy v = true.
Proof.
  induction fields as [ | f rest IH]; intros entity v H; simpl in H.
  - discriminate.
  - destruct (lookup f entity) as [x | ]; [ | eauto ].
    destruct (Py.truthy x) eqn:Ex; [ | eauto ].
    injection H as <-. exact Ex.
Qed.




Lemma employment_returns entity : returns (employment entity) = true.
Proof.
  unfold employment.
  destruct (first_truthy_in employment_fields entity) as [v | ] eqn:E; [ | reflexivity ].
  apply first_truthy_in_truthy in E.
  destruct v as [ | | | | | items | d]; rewrite ?bind_ok; try reflexivity.
  destruct items as [ | job rest]; [ discriminate | ]. simpl.
  destruct job; reflexivity.
Qed.







Lemma select_entities_listed body items :
  match_list body = Some items -> select_entities (JDict body) = Ok (JList items).
Proof.
  unfold match_list, select_entities, key_truthy, Py.contains, Py.getitem, has_key.
  intros Hlist.
  destruct (lookup "data" body) as [v | ]; rewrite ?bind_ok;
    [ destruct v as [ | | | | | ms | ]; try discriminate;
      destruct ms as [ | m ms]; [ | injection Hlist as <-; reflexivity ];
      change (Py.truthy (JList [])) with false; rewrite ?bind_ok | ];
    (destruct (lookup "results" body) as [v | ]; rewrite ?bind_ok;
     [ destruct v as [ | | | | | ms | ]; try discriminate;
       injection Hlist as <-; destruct ms; reflexivity
     | injection Hlist as <-; reflexivity ]).
Qed.

(** the debugging prints pass unless the first entry of a non-empty [data]
    is not an object, and then that entry is not a match that can be
    formatted either *)
Lemma debug_prints_listed type body items :
  match_list body = Some items ->
  returns (debug_prints (JDict body)) = true
  \/ forallb (match_ok type) items = false.
Proof.
  unfold match_list, debug_prints, Py.keys, Py.contains, Py.getitem, has_key.
  intros Hlist.
  destruct (lookup "data" body) as [v | ]; rewrite !bind_ok; [ | left; reflexivity ].
  destruct v as [ | | | | | ms | ]; try discriminate.
  destruct ms as [ | m ms]; [ left; reflexivity | ].
  injection Hlist as <-.
  destruct m; try (right; reflexivity). left. reflexivity.
Qed.






(** ** Further properties of the two tools *)

Lemma known_type t :
  existsb (String.eqb t) ["Person"; "Organization"] = true
  <-> t = "Person" \/ t = "Organization".
Proof.
  simpl. rewrite !orb_true_iff, !String.eqb_eq. intuition discriminate.
Qed.

Lemma validate_raises_value_error a e :
  validate_enhance a = Raise e -> exists msg, e = ValueError msg.
Proof.
  unfold validate_enhance. intros E.
  destruct (negb (existsb (String.eqb (Args.type a)) ["Person"; "Organization"]));
    [ injection E as <-; eexists; reflexivity | ].
  destruct (String.eqb (Args.type a) "Organization"
            && negb (given (Args.name a) || given (Args.url a)));
    [ injection E as <-; eexists; reflexivity | ].
  destruct (String.eqb (Args.type a) "Person" && negb (given (Args.name a)));
    [ injection E as <-; eexists; reflexivity | discriminate ].
Qed.

(** X1: [enhance_entity] accepts a call exactly when the type is
    "Organization" with a non-empty name or url, or "Person" with a
    non-empty name; nothing else (threshold, size, the other inputs) is
    looked at.  An accepted call sends one request; a refused call raises
    [ValueError] and sends none. *)
Theorem validation_exact
  (token : string) (client_get : request -> reply) (a : Args.t) :
  (validate_enhance a = Ok tt
   <-> (Args.type a = "Organization"
        /\ (given (Args.name a) = true \/ given (Args.url a) = true))
       \/ (Args.type a = "Person" /\ given (Args.name a) = true))
  /\ (validate_enhance a = Ok tt ->
      sent (enhance_entity token client_get a)
      = [{| req_url := enhance_url; req_params := enhance_params token a |}])
  /\ (validate_enhance a <> Ok tt ->
      exists msg, enhance_entity token client_get a = ([], Raise (ValueError msg))).
Proof.
  split; [ | split ].
  - unfold validate_enhance.
    destruct (String.eqb_spec (Args.type a) "Organization") as [Horg | Horg];
      destruct (String.eqb_spec (Args.type a) "Person") as [Hper | Hper];
      try (rewrite Horg in Hper; discriminate).
    + rewrite Horg. cbn [existsb String.eqb Ascii.eqb Bool.eqb orb negb andb].
      destruct (given (Args.name a)), (given (Args.url a)); cbn [orb negb];
        split; intros H; try discriminate; try reflexivity; try tauto;
        destruct H as [[_ [H | H]] | [H _]]; discriminate.
    + rewrite Hper. cbn [existsb String.eqb Ascii.eqb Bool.eqb orb negb andb].
      destruct (given (Args.name a)); cbn [negb];
        split; intros H; try discriminate; try reflexivity; try tauto;
        destruct H as [[H _] | [_ H]]; discriminate.
    + assert (Hunknown : existsb (String.eqb (Args.type a)) ["Person"; "Organization"]
                         = false).
      { destruct (existsb (String.eqb (Args.type a)) ["Person"; "Organization"]) eqn:E;
          [ | reflexivity ].
        apply known_type in E. tauto. }
      rewrite Hunknown. cbn [negb].
      split; intros H; [ discriminate | tauto ].
  - intros Hvalid. unfold enhance_entity. rewrite Hvalid. reflexivity.
  - intros Hinvalid. unfold enhance_entity.
    destruct (validate_enhance a) as [[] | e] eqn:E; [ contradiction | ].
    destruct (validate_raises_value_error a e E) as [msg ->].
    exists msg. reflexivity.
Qed.

(** X2: [dql_search] sends exactly one request, to the search endpoint and
    with the five parameters token, query, num, start and format=json,
    when [1 <= num <= 100] and [0 <= start], whatever the server answers;
    otherwise it sends none and raises [ValueError], the message about
    [num] taking precedence when both arguments are out of range. *)
Theorem search_sends_one_request
  (token : string) (client_get : request -> reply) (query : string) (num start : Z) :
  (1 <= num <= 100 /\ 0 <= start ->
   sent (dql_search token client_get query num start)
   = [{| req_url := "https://api.diffbot.com/v3/search";
         req_params := [("token", PStr token); ("query", PStr query);
                        ("num", PInt num); ("start", PInt start);
                        ("format", PStr "json")] |}])
  /\ (num < 1 \/ 100 < num ->
      dql_search token client_get query num start
      = ([], Raise (ValueError "num must be between 1 and 100")))
  /\ (1 <= num <= 100 -> start < 0 ->
      dql_search token client_get query num start
      = ([], Raise (ValueError "start must be >= 0"))).
Proof.
  unfold dql_search. split; [ | split ].
  - intros [Hnum Hstart].
    assert (Hn : (num <? 1) || (100 <? num) = false)
      by (apply orb_false_iff; split; apply Z.ltb_ge; lia).
    assert (Hs : (start <? 0) = false) by (apply Z.ltb_ge; lia).
    rewrite Hn, Hs. reflexivity.
  - intros Hnum.
    assert (Hn : (num <? 1) || (100 <? num) = true)
      by (apply orb_true_iff; destruct Hnum; [ left | right ]; apply Z.ltb_lt; lia).
    rewrite Hn. reflexivity.
  - intros Hnum Hstart.
    assert (Hn : (num <? 1) || (100 <? num) = false)
      by (apply orb_false_iff; split; apply Z.ltb_ge; lia).
    assert (Hs : (start <? 0) = true) by (apply Z.ltb_lt; lia).
    rewrite Hn, Hs. reflexivity.
Qed.

Lemma set_param_keys k v p k0 :
  In k0 (map fst (set_param k v p)) <-> k0 = k \/ In k0 (map fst p).
Proof.
  induction p as [ | [k' v'] p IH]; simpl.
  - intuition auto.
  - destruct (String.eqb_spec k k') as [-> | Hne]; simpl.
    + intuition auto.
    + rewrite IH. intuition auto.
Qed.

Lemma set_param_nodup k v p :
  NoDup (map fst p) -> NoDup (map fst (set_param k v p)).
Proof.
  induction p as [ | [k' v'] p IH]; simpl; intros Hnd.
  - repeat constructor. simpl. tauto.
  - inversion Hnd as [ | x l Hnotin Hrest]; subst.
    destruct (String.eqb_spec k k') as [-> | Hne]; simpl.
    + constructor; assumption.
    + constructor; [ | apply IH; exact Hrest ].
      rewrite set_param_keys. intros [Heq | Hin]; [ congruence | contradiction ].
Qed.

Lemma add_inputs_keys inputs : forall p k0,
  In k0 (map fst (add_inputs inputs p)) ->
  In k0 (map fst inputs) \/ In k0 (map fst p).
Proof.
  induction inputs as [ | [key [value | ]] rest IH]; intros p k0 Hin; simpl in *.
  - right. exact Hin.
  - apply IH in Hin. rewrite set_param_keys in Hin. intuition auto.
  - apply IH in Hin. intuition auto.
Qed.

Lemma add_inputs_nodup inputs : forall p,
  NoDup (map fst p) -> NoDup (map fst (add_inputs inputs p)).
Proof.
  induction inputs as [ | [key [value | ]] rest IH]; intros p Hnd; simpl.
  - exact Hnd.
  - apply IH. apply set_param_nodup. exact Hnd.
  - apply IH. exact Hnd.
Qed.

(** X3: the mapping [enhance_entity] sends never holds a key twice and
    never holds a key outside the fifteen names the function knows. *)
Theorem enhance_params_keys (token : string) (a : Args.t) :
  NoDup (map fst (enhance_params token a))
  /\ (forall key,
        In key (map fst (enhance_params token a)) ->
        In key ["token"; "type"; "name"; "url"; "location"; "phone"; "employer";
                "title"; "school"; "ip"; "id"; "threshold"; "size"; "refresh";
                "search"]).
Proof.
  unfold enhance_params. split.
  - destruct (Args.threshold a), (negb (Args.size a =? 1)), (Args.refresh a),
      (Args.search a);
      repeat apply set_param_nodup; apply add_inputs_nodup;
      repeat constructor; simpl; intuition discriminate.
  - intros key Hin.
    assert (Hbase : forall k,
               In k (map fst (add_inputs (input_params a)
                                [("token", PStr token); ("type", PStr (Args.type a))])) ->
               In k ["token"; "type"; "name"; "url"; "location"; "phone"; "employer";
                     "title"; "school"; "ip"; "id"]).
    { intros k Hk. apply add_inputs_keys in Hk. simpl in Hk. simpl. intuition auto. }
    destruct (Args.threshold a), (negb (Args.size a =? 1)), (Args.refresh a),
      (Args.search a);
      repeat (rewrite set_param_keys in Hin;
              destruct Hin as [-> | Hin]; [ simpl; tauto | ]);
      apply Hbase in Hin; simpl in Hin; simpl; intuition auto.
Qed.

(** X4: whatever [enhance_entity] raises is either the [ValueError] of
    the argument check, with no request sent, or a plain [Exception]
    whose message starts with "HTTP error during entity enhancement: " for
    an error of the HTTP client, with "Unexpected response format from
    Diffbot API: " for a [KeyError], and with "Error enhancing entity: "
    for anything else. *)
Theorem enhance_errors_are_wrapped
  (token : string) (client_get : request -> reply) (a : Args.t) (e : exn) :
  outcome (enhance_entity token client_get a) = Raise e ->
  (exists msg, e = ValueError msg /\ sent (enhance_entity token client_get a) = [])
  \/ (exists cause,
        is_http_error cause = true
        /\ e = Exception "HTTP error during entity enhancement: " cause)
  \/ e = Exception "Unexpected response format from Diffbot API: " KeyError
  \/ (exists cause,
        is_http_error cause = false /\ cause <> KeyError
        /\ e = Exception "Error enhancing entity: " cause).
Proof.
  unfold enhance_entity, outcome, sent.
  destruct (validate_enhance a) as [[] | e0] eqn:E.
  - cbn [snd].
    match goal with
    | |- match ?body with _ => _ end = _ -> _ => destruct body as [text | cause]
    end; [ discriminate | ].
    destruct (is_http_error cause) eqn:Ehttp.
    + intros H. injection H as <-. right. left. exists cause. split; [ exact Ehttp | reflexivity ].
    + destruct cause; intros H; injection H as <-;
        try (right; right; left; reflexivity);
        right; right; right; eexists; (split; [ exact Ehttp | split; [ discriminate | reflexivity ] ]).
  - destruct (validate_raises_value_error a e0 E) as [msg ->].
    cbn [snd fst]. intros H. injection H as <-.
    left. exists msg. split; reflexivity.
Qed.

Lemma enhance_errors_are_wrapped_witness :
  (exists msg, Exception "HTTP error during entity enhancement: " (HTTPStatusError 503)
               = ValueError msg
               /\ sent (enhance_entity "token" (answers 503 None) acme_request) = [])
  \/ (exists cause,
        is_http_error cause = true
        /\ Exception "HTTP error during entity enhancement: " (HTTPStatusError 503)
           = Exception "HTTP error during entity enhancement: " cause)
  \/ Exception "HTTP error during entity enhancement: " (HTTPStatusError 503)
     = Exception "Unexpected response format from Diffbot API: " KeyError
  \/ (exists cause,
        is_http_error cause = false /\ cause <> KeyError
        /\ Exception "HTTP error during entity enhancement: " (HTTPStatusError 503)
           = Exception "Error enhancing entity: " cause).
Proof.
  apply (enhance_errors_are_wrapped "token" (answers 503 None) acme_request).
  reflexivity.
Defined.




(** X6: when [objects] is absent or empty the search report is the header
    alone, and its range reads from [start + 1] to [start] ("Showing 1-0"
    for the first page). *)
Theorem empty_search_report
  (token : string) (client_get : request -> reply)
  (query : string) (num start : Z) (r : response) (body : dict) :
  1 <= num <= 100 -> 0 <= start ->
  client_get {| req_url := DQL_ENDPOINT;
                req_params := dql_params token query num start |} = Response r ->
  200 <= status_code r <= 299 ->
  json_body r = Some (JDict body) ->
  lookup "objects" body = None
  \/ (exists objects, lookup "objects" body = Some objects /\ Py.len objects = Ok 0%nat) ->
  outcome (dql_search token client_get query num start)
  = Ok ("DQL Search Results for: " ++ query ++ nl
          ++ "Total results: "
          ++ match lookup "hits" body with Some h => Py.str h | None => "0" end ++ nl
          ++ "Showing " ++ PyNum.str_of_Z (start + 1) ++ "-" ++ PyNum.str_of_Z start
          ++ nl ++ nl).
Proof.
  intros Hnum Hstart Hget Hstatus Hbody Hempty.
  assert (Hn : (num <? 1) || (100 <? num) = false)
    by (apply orb_false_iff; split; apply Z.ltb_ge; lia).
  assert (Hs : (start <? 0) = false) by (apply Z.ltb_ge; lia).
  unfold dql_search, outcome. rewrite Hn, Hs. cbn [snd].
  rewrite Hget. unfold await_get, response_json.
  rewrite bind_ok, (success_passes r Hstatus), bind_ok, Hbody, bind_ok.
  assert (Hfmt : exists objects,
             Py.get (JDict body) "objects" (JList []) = Ok objects
             /\ Py.len objects = Ok 0%nat /\ Py.iter objects = Ok []).
  { unfold Py.get. destruct Hempty as [-> | [objects [-> Hlen]]].
    - exists (JList []). repeat split.
    - exists objects. split; [ reflexivity | split; [ exact Hlen | ] ].
      destruct objects as [ | | | | s | items | fields ]; try discriminate;
        simpl in Hlen; injection Hlen as Hlen.
      + destruct s; [ reflexivity | discriminate ].
      + destruct items; [ reflexivity | discriminate ].
      + destruct fields; [ reflexivity | discriminate ]. }
  destruct Hfmt as [objects [Hobjects [Hlen Hiter]]].
  unfold dql_format. rewrite Hobjects.
  assert (Hhits : Py.get (JDict body) "hits" (JInt 0)
                  = Ok match lookup "hits" body with Some h => h | None => JInt 0 end)
    by (unfold Py.get; destruct (lookup "hits" body); reflexivity).
  rewrite Hhits, !bind_ok, Hlen, !bind_ok, Hiter, !bind_ok.
  cbn [dql_results]. rewrite bind_ok, Z.add_0_r, append_nil_r.
  destruct (lookup "hits" body); rewrite ?append_assoc; reflexivity.
Qed.

Lemma empty_search_report_witness :
  outcome (dql_search "token" (answers 200 (Some (JDict [("hits", JInt 0)])))
             "type:article" 10 0)
  = Ok ("DQL Search Results for: type:article" ++ nl
          ++ "Total results: 0" ++ nl ++ "Showing 1-0" ++ nl ++ nl).
Proof.
  apply (empty_search_report "token" (answers 200 (Some (JDict [("hits", JInt 0)])))
           "type:article" 10 0
           {| status_code := 200; json_body := Some (JDict [("hits", JInt 0)]) |}
           [("hits", JInt 0)]).
  - lia.
  - lia.
  - reflexivity.
  - simpl. lia.
  - reflexivity.
  - left. reflexivity.
Defined.



Lemma take_all n : forall s, (String.length s <= n)%nat -> PyStr.take n s = s.
Proof.
  induction n as [ | n IH]; intros s Hlen; destruct s as [ | c s]; simpl in *;
    try reflexivity; try lia.
  rewrite IH by lia. reflexivity.
Qed.


(** X8: a first-match lookup (website, revenue, industry, description,
    job title, Diffbot URI) yields the value of the earliest listed key
    that the mapping holds, whatever that value is ([null] included) and
    whatever later keys hold; it yields nothing exactly when none of the
    keys is there. *)
Theorem first_in_earliest (fields : list string) (entity : dict) (v : json) :
  first_in fields entity = Some v
  <-> exists earlier field later,
        fields = (earlier ++ field :: later)%list
        /\ lookup field entity = Some v
        /\ Forall (fun f => lookup f entity = None) earlier.
Proof.
  split.
  - revert v. induction fields as [ | f rest IH]; intros v H; simpl in H.
    + discriminate.
    + destruct (lookup f entity) as [x | ] eqn:E.
      * injection H as <-. exists [], f, rest. repeat split; [ exact E | constructor ].
      * destruct (IH v H) as [earlier [field [later [-> [Hfield Hearlier]]]]].
        exists (f :: earlier), field, later.
        repeat split; [ exact Hfield | constructor; assumption ].
  - intros [earlier [field [later [-> [Hfield Hearlier]]]]].
    induction Hearlier as [ | f earlier Hf _ IH]; simpl.
    + rewrite Hfield. reflexivity.
    + rewrite Hf. exact IH.
Qed.

(** X9: the employment and education lookups skip a key whose value is
    empty: they yield the value of the earliest listed key that is present
    with a true value, every earlier key being absent or false. *)
Theorem first_truthy_in_earliest (fields : list string) (entity : dict) (v : json) :
  first_truthy_in fields entity = Some v
  <-> exists earlier field later,
        fields = (earlier ++ field :: later)%list
        /\ lookup field entity = Some v /\ Py.truthy v = true
        /\ Forall (fun f => match lookup f entity with
                            | Some x => Py.truthy x = false
                            | None => True
                            end) earlier.
Proof.
  split.
  - revert v. induction fields as [ | f rest IH]; intros v H; simpl in H.
    + discriminate.
    + destruct (lookup f entity) as [x | ] eqn:E.
      * destruct (Py.truthy x) eqn:Ex.
        -- injection H as <-. exists [], f, rest.
           repeat split; [ exact E | exact Ex | constructor ].
        -- destruct (IH v H) as [earlier [field [later [-> [Hfield [Htrue Hearlier]]]]]].
           exists (f :: earlier), field, later.
           repeat split; [ exact Hfield | exact Htrue | ].
           constructor; [ rewrite E; exact Ex | assumption ].
      * destruct (IH v H) as [earlier [field [later [-> [Hfield [Htrue Hearlier]]]]]].
        exists (f :: earlier), field, later.
        repeat split; [ exact Hfield | exact Htrue | ].
        constructor; [ rewrite E; exact I | assumption ].
  - intros [earlier [field [later [-> [Hfield [Htrue Hearlier]]]]]].
    induction Hearlier as [ | f earlier Hf _ IH]; simpl.
    + rewrite Hfield, Htrue. reflexivity.
    + destruct (lookup f entity) as [x | ]; [ rewrite Hf | ]; exact IH.
Qed.

Lemma social_links_member mappings entity link :
  In link (social_links mappings entity)
  <-> exists field platform v,
        In (field, platform) mappings
        /\ lookup field entity = Some v /\ Py.truthy v = true
        /\ link = platform ++ ": " ++ Py.str v.
Proof.
  induction mappings as [ | [f p] rest IH]; simpl.
  - split; [ contradiction | intros [? [? [? [[] _]]]] ].
  - destruct (lookup f entity) as [x | ] eqn:E; [ destruct (Py.truthy x) eqn:Ex | ].
    + simpl. rewrite IH. split.
      * intros [<- | [field [platform [v [Hin H]]]]].
        -- exists f, p, x. auto.
        -- exists field, platform, v. auto.
      * intros [field [platform [v [[Heq | Hin] [Hv [Ht ->]]]]]].
        -- injection Heq as <- <-. rewrite E in Hv. injection Hv as <-. left. reflexivity.
        -- right. exists field, platform, v. auto.
    + rewrite IH. split.
      * intros [field [platform [v [Hin H]]]]. exists field, platform, v. auto.
      * intros [field [platform [v [[Heq | Hin] [Hv [Ht ->]]]]]].
        -- injection Heq as <- <-. rewrite E in Hv. injection Hv as <-. congruence.
        -- exists field, platform, v. auto.
    + rewrite IH. split.
      * intros [field [platform [v [Hin H]]]]. exists field, platform, v. auto.
      * intros [field [platform [v [[Heq | Hin] [Hv [Ht ->]]]]]].
        -- injection Heq as <- <-. congruence.
        -- exists field, platform, v. auto.
Qed.

(** X10: the Social Media line collects a link for every one of the ten
    known keys that the entity holds with a true value, not only for the
    first key of a platform: ["<platform>: <value>"] is among the links
    exactly when some key of that platform holds that value; the line is
    left out exactly when there is no such key. *)
Theorem social_links_complete (entity : dict) :
  (forall link,
      In link (social_links social_mappings entity)
      <-> exists field platform v,
            In (field, platform) social_mappings
            /\ lookup field entity = Some v /\ Py.truthy v = true
            /\ link = platform ++ ": " ++ Py.str v)
  /\ (social entity = ""
      <-> social_links social_mappings entity = [])
  /\ (social_links social_mappings entity <> [] ->
      social entity
      = "  Social Media: " ++ PyStr.join ", " (social_links social_mappings entity) ++ nl).
Proof.
  split; [ intros link; apply social_links_member | ].
  unfold social. destruct (social_links social_mappings entity) as [ | l rest].
  - split; [ tauto | intros H; contradiction ].
  - split; [ split; discriminate | intros _; reflexivity ].
Qed.

Lemma interesting_member fields entity field v :
  In field fields -> lookup field entity = Some v -> Py.truthy v = true ->
  PyStr.occurs (line (PyStr.title (field_name field)) (Py.str v))
               (interesting fields entity).
Proof.
  intros Hin Hv Ht. induction fields as [ | f rest IH]; [ contradiction | ].
  cbn [interesting]. destruct Hin as [-> | Hin].
  - rewrite Hv, Ht. auto with pieces.
  - specialize (IH Hin).
    destruct (lookup f entity) as [x | ]; [ destruct (Py.truthy x) | ];
      auto with pieces.
Qed.

(** X11: each of the six extra fields that the entity holds with a true
    value is printed under the label that [replace] and [title()] produce
    for it: "Founded" for [founded] and for [foundedYear], "Stock Ticker"
    for [ticker], "Stock" for [stock], "Headquarters" for [headquarters],
    and "Ceo" for [ceo] (the replacement by "CEO" is undone by
    [title()]). *)
Theorem interesting_field_labels
  (entity : dict) (field label : string) (v : json) :
  In (field, label)
     [("founded", "Founded"); ("foundedYear", "Founded"); ("ticker", "Stock Ticker");
      ("stock", "Stock"); ("ceo", "Ceo"); ("headquarters", "Headquarters")] ->
  lookup field entity = Some v -> Py.truthy v = true ->
  PyStr.occurs ("  " ++ label ++ ": " ++ Py.str v ++ nl) (common entity).
Proof.
  intros Hlabel Hv Ht.
  assert (Hline : PyStr.occurs (line (PyStr.title (field_name field)) (Py.str v))
                               (interesting interesting_fields entity)).
  { apply interesting_member; [ | exact Hv | exact Ht ].
    simpl in Hlabel. simpl.
    repeat (destruct Hlabel as [Heq | Hlabel];
            [ injection Heq as <- _; tauto | ]).
    contradiction. }
  assert (Hname : PyStr.title (field_name field) = label).
  { simpl in Hlabel.
    repeat (destruct Hlabel as [Heq | Hlabel];
            [ injection Heq as <- <-; reflexivity | ]).
    contradiction. }
  rewrite Hname in Hline. unfold common. unfold line in Hline.
  auto with pieces.
Qed.

Lemma interesting_field_labels_witness :
  PyStr.occurs ("  " ++ "Ceo" ++ ": " ++ "Ada" ++ nl)
               (common [("name", JStr "Acme"); ("ceo", JStr "Ada")]).
Proof.
  apply (interesting_field_labels [("name", JStr "Acme"); ("ceo", JStr "Ada")]
           "ceo" "Ceo" (JStr "Ada")).
  - simpl. tauto.
  - reflexivity.
  - reflexivity.
Defined.

Lemma school_of_one edu : (List.length (school_of edu) <= 1)%nat.
Proof.
  unfold school_of. destruct edu as [ | | | | | | e]; simpl; try lia.
  destruct (lookup "institution" e) as [inst | ];
    [ destruct inst as [ | | | | | | d]; [ | | | | | | destruct (lookup "name" d) ] | ];
    simpl; try lia;
    (destruct (lookup "school" e); [ simpl; lia | ]);
    (destruct (lookup "name" e); simpl; lia).
Qed.

Lemma firstn_firstn_same {A : Type} (n : nat) (l : list A) :
  firstn n (firstn n l) = firstn n l.
Proof. rewrite firstn_firstn, Nat.min_id. reflexivity. Qed.

(** X12: the Education line is built from the first two entries of the
    education list alone: it names at most two schools, and entries from
    the third on never change it. *)
Theorem education_first_two (entity : dict) (items : list json) :
  first_truthy_in education_fields entity = Some (JList items) ->
  (List.length (flat_map school_of (firstn 2 items)) <= 2)%nat
  /\ education entity = education [("educations", JList (firstn 2 items))].
Proof.
  intros Hfirst. split.
  - destruct items as [ | a [ | b rest]]; simpl; rewrite ?length_app; simpl;
      try pose proof (school_of_one a); try pose proof (school_of_one b); lia.
  - assert (Hne : Py.truthy (JList items) = true)
      by (apply (first_truthy_in_truthy education_fields entity); exact Hfirst).
    unfold education at 1. rewrite Hfirst.
    unfold education. cbn [first_truthy_in education_fields lookup String.eqb Ascii.eqb Bool.eqb].
    assert (Hne2 : Py.truthy (JList (firstn 2 items)) = true)
      by (destruct items as [ | a [ | b rest]]; [ discriminate | reflexivity | reflexivity ]).
    rewrite Hne2, firstn_firstn_same. reflexivity.
Qed.

Lemma education_first_two_witness :
  education [("schools", JList [JDict [("name", JStr "MIT")];
                               JDict [("school", JStr "ETH")];
                               JDict [("name", JStr "EPFL")]])]
  = education [("educations", JList [JDict [("name", JStr "MIT")];
                                     JDict [("school", JStr "ETH")]])].
Proof.
  destruct (education_first_two
              [("schools", JList [JDict [("name", JStr "MIT")];
                                  JDict [("school", JStr "ETH")];
                                  JDict [("name", JStr "EPFL")]])]
              [JDict [("name", JStr "MIT")]; JDict [("school", JStr "ETH")];
               JDict [("name", JStr "EPFL")]] eq_refl) as [_ Hsame].
  exact Hsame.
Defined.

(** X13: the employment block never raises, whatever the shape of the
    value it finds (a list is indexed only when it is not empty, and every
    further read is behind a type test); and of an employment list only
    the first entry is read. *)
Theorem employment_never_raises (entity : dict) :
  (exists text, employment entity = Ok text)
  /\ (forall job rest,
        first_truthy_in employment_fields entity = Some (JList (job :: rest)) ->
        employment entity = employment [("employments", JList [job])]).
Proof.
  split.
  - pose proof (employment_returns entity) as Hreturns.
    destruct (employment entity) as [text | e]; [ exists text; reflexivity | discriminate ].
  - intros job rest Hfirst. unfold employment. rewrite Hfirst. reflexivity.
Qed.



(** X15: for a 2xx response whose body is an object with no match list to
    show (no [data] or an empty one, and no [results] or an empty one),
    [enhance_entity] returns exactly the banner, the sentence "No <type>
    found matching the provided criteria." with the type in lower case,
    and the three suggestions, without a final newline. *)
Theorem not_found_message
  (token : string) (client_get : request -> reply) (a : Args.t)
  (r : response) (body : dict) :
  validate_enhance a = Ok tt ->
  client_get {| req_url := enhance_url; req_params := enhance_params token a |}
  = Response r ->
  200 <= status_code r <= 299 ->
  json_body r = Some (JDict body) ->
  match_list body = Some [] ->
  outcome (enhance_entity token client_get a)
  = Ok (String.concat nl
          ["Enhanced " ++ Args.type a ++ " Data:";
           PyStr.repeat "=" 50;
           "";
           "No " ++ PyStr.lower (Args.type a) ++ " found matching the provided criteria.";
           "Try:";
           "- Adding more input parameters (location, url, etc.)";
           "- Lowering the threshold parameter";
           "- Using search=True to search beyond the Knowledge Graph"]).
Proof.
  intros Hvalid Hget Hstatus Hbody Hlist.
  unfold enhance_entity, outcome. rewrite Hvalid. cbn [snd].
  rewrite Hget. unfold await_get, response_json.
  rewrite bind_ok, (success_passes r Hstatus), bind_ok, Hbody, bind_ok.
  unfold enhance_format, enhance_text.
  rewrite (select_entities_listed body [] Hlist).
  destruct (debug_prints_listed (Args.type a) body [] Hlist) as [Hdebug | Hbad];
    [ | discriminate ].
  destruct (debug_prints (JDict body)); [ | discriminate ].
  rewrite !bind_ok. change (Py.truthy (JList [])) with false. cbv iota.
  rewrite bind_ok.
  assert (Htype : Args.type a = "Person" \/ Args.type a = "Organization").
  { apply known_type. unfold validate_enhance in Hvalid.
    destruct (existsb (String.eqb (Args.type a)) ["Person"; "Organization"]);
      [ reflexivity | discriminate ]. }
  destruct Htype as [-> | ->]; vm_compute; reflexivity.
Qed.

Lemma not_found_message_witness :
  outcome (enhance_entity "token" (answers 200 (Some (JDict [("data", JList [])])))
             acme_request)
  = Ok (String.concat nl
          ["Enhanced Organization Data:";
           PyStr.repeat "=" 50;
           "";
           "No organization found matching the provided criteria.";
           "Try:";
           "- Adding more input parameters (location, url, etc.)";
           "- Lowering the threshold parameter";
           "- Using search=True to search beyond the Knowledge Graph"]).
Proof.
  apply (not_found_message "token" (answers 200 (Some (JDict [("data", JList [])])))
           acme_request
           {| status_code := 200; json_body := Some (JDict [("data", JList [])]) |}
           [("data", JList [])]).
  - reflexivity.
  - reflexivity.
  - simpl. lia.
  - reflexivity.
  - reflexivity.
Defined.


(** X16: when [data] holds a non-empty object instead of a list, the call
    fails with the message for an unexpected response format: the
    debugging print indexes [data['data'][0]], which is a [KeyError] on an
    object, and [KeyError] has a handler of its own. *)
Theorem object_data_is_unexpected
  (token : string) (client_get : request -> reply) (a : Args.t)
  (r : response) (body d : dict) :
  validate_enhance a = Ok tt ->
  client_get {| req_url := enhance_url; req_params := enhance_params token a |}
  = Response r ->
  200 <= status_code r <= 299 ->
  json_body r = Some (JDict body) ->
  lookup "data" body = Some (JDict d) -> d <> [] ->
  outcome (enhance_entity token client_get a)
  = Raise (Exception "Unexpected response format from Diffbot API: " KeyError).
Proof.
  intros Hvalid Hget Hstatus Hbody Hdata Hne.
  unfold enhance_entity, outcome. rewrite Hvalid. cbn [snd].
  rewrite Hget. unfold await_get, response_json.
  rewrite bind_ok, (success_passes r Hstatus), bind_ok, Hbody, bind_ok.
  unfold enhance_format, enhance_text, debug_prints.
  unfold Py.keys, Py.contains, Py.getitem, has_key. rewrite Hdata, !bind_ok.
  unfold Py.len. rewrite bind_ok.
  destruct d as [ | entry d]; [ contradiction | ]. reflexivity.
Qed.

Lemma object_data_is_unexpected_witness :
  outcome (enhance_entity "token"
             (answers 200 (Some (JDict [("data", JDict [("name", JStr "Acme")])])))
             acme_request)
  = Raise (Exception "Unexpected response format from Diffbot API: " KeyError).
Proof.
  apply (object_data_is_unexpected "token"
           (answers 200 (Some (JDict [("data", JDict [("name", JStr "Acme")])])))
           acme_request
           {| status_code := 200;
              json_body := Some (JDict [("data", JDict [("name", JStr "Acme")])]) |}
           [("data", JDict [("name", JStr "Acme")])] [("name", JStr "Acme")]).
  - reflexivity.
  - reflexivity.
  - simpl. lia.
  - reflexivity.
  - reflexivity.
  - discriminate.
Defined.

Lemma format_match_heading type i m text :
  format_match type i m = Ok text -> exists rest, text = match_heading i ++ rest.
Proof.
  unfold format_match. cbv zeta. intros H.
  bind_inv H. bind_inv H. bind_inv H.
  destruct (negb (Py.truthy a1)).
  - ok_inv H. eexists. reflexivity.
  - destruct a1; try discriminate. bind_inv H. ok_inv H. eexists. reflexivity.
Qed.

Lemma format_matches_parts type items : forall i text,
  format_matches type i items = Ok text ->
  exists parts,
    List.length parts = List.length items
    /\ text = String.concat "" parts
    /\ forall k part,
         nth_error parts k = Some part ->
         exists rest, part = match_heading (i + k) ++ rest.
Proof.
  induction items as [ | m rest IH]; intros i text H; simpl in H.
  - ok_inv H. exists []. repeat split. intros [ | k] part Hk; discriminate.
  - bind_inv H. bind_inv H. ok_inv H.
    destruct (IH (S i) a0 E0) as [parts [Hlen [-> Hparts]]].
    destruct (format_match_heading type i m a E) as [tail ->].
    exists ((match_heading i ++ tail) :: parts).
    split; [ simpl; rewrite Hlen; reflexivity | split ].
    + destruct parts as [ | p ps]; [ simpl; rewrite append_nil_r; reflexivity | ].
      simpl. destruct ps; reflexivity.
    + intros [ | k] part Hk; simpl in Hk.
      * injection Hk as <-. rewrite Nat.add_0_r. exists tail. reflexivity.
      * rewrite <- Nat.add_succ_comm. apply Hparts. exact Hk.
Qed.

(** X17: the text of the matches is one part per match, in the order of
    the list; the part of the k-th match (counting from 0) starts with the
    heading "Match #k+1:", preceded by the divider of forty dashes for
    every match but the first. *)
Theorem matches_are_numbered (type : string) (items : list json) (text : string) :
  format_matches type 1 items = Ok text ->
  exists parts,
    List.length parts = List.length items
    /\ text = String.concat "" parts
    /\ forall k part,
         nth_error parts k = Some part ->
         exists rest,
           part = (if (k =? 0)%nat then "" else nl ++ PyStr.repeat "-" 40 ++ nl ++ nl)
                    ++ "Match #" ++ PyNum.str_of_nat (S k) ++ ":" ++ nl ++ rest.
Proof.
  intros H. destruct (format_matches_parts type items 1 text H) as [parts [Hlen [Htext Hparts]]].
  exists parts. split; [ exact Hlen | split; [ exact Htext | ] ].
  intros k part Hk. destruct (Hparts k part Hk) as [rest ->]. exists rest.
  change (1 + k)%nat with (S k). unfold match_heading, divider.
  destruct k as [ | k]; [ reflexivity | ].
  change (1 <? S (S k))%nat with true. cbv iota.
  change (S k =? 0)%nat with false. cbv iota.
  rewrite ?append_assoc. reflexivity.
Qed.

Lemma matches_are_numbered_witness :
  exists parts,
    List.length parts = 2%nat
    /\ two_matches_raw = String.concat "" parts
    /\ forall k part,
         nth_error parts k = Some part ->
         exists rest,
           part = (if (k =? 0)%nat then "" else nl ++ PyStr.repeat "-" 40 ++ nl ++ nl)
                    ++ "Match #" ++ PyNum.str_of_nat (S k) ++ ":" ++ nl ++ rest.
Proof.
  apply (matches_are_numbered "Organization" [JDict acme_match; JDict bare_match]
           two_matches_raw).
  reflexivity.
Defined.

Lemma iter_of_true v items :
  Py.truthy v = true -> Py.iter v = Ok items -> items <> [].
Proof.
  destruct v as [ | | | | s | l | d]; try discriminate; simpl; intros Ht Hi;
    injection Hi as <-.
  - destruct s; [ discriminate | simpl; discriminate ].
  - destruct l; discriminate.
  - destruct d; [ discriminate | simpl; discriminate ].
Qed.

Lemma wrapped_is_raise (body : result string) (text : string) :
  match body with
  | Ok t => Ok t
  | Raise e =>
      if is_http_error e then
        Raise (Exception "HTTP error during entity enhancement: " e)
      else
        match e with
        | KeyError => Raise (Exception "Unexpected response format from Diffbot API: " e)
        | _ => Raise (Exception "Error enhancing entity: " e)
        end
  end = Ok text ->
  body = Ok text.
Proof.
  destruct body as [t | e]; [ trivial | ].
  destruct (is_http_error e); [ discriminate | destruct e; discriminate ].
Qed.

Lemma enhance_returns_format token client_get a text :
  outcome (enhance_entity token client_get a) = Ok text ->
  validate_enhance a = Ok tt
  /\ exists data, enhance_format (Args.type a) data = Ok text.
Proof.
  unfold enhance_entity, outcome.
  destruct (validate_enhance a) as [[] | e0]; [ | discriminate ].
  cbn [snd]. intros H. apply wrapped_is_raise in H.
  bind_inv H. bind_inv H. bind_inv H.
  split; [ reflexivity | ]. exists a2. exact H.
Qed.

(** X18: every text that [enhance_entity] returns starts with the banner

    "Enhanced <type> Data:", a rule of fifty "=" and an empty line, whole
    in spite of the final [strip()], and goes on with the heading of the
    first match or with the sentence that nothing was found. *)
Theorem text_starts_with_banner
  (token : string) (client_get : request -> reply) (a : Args.t) (text : string) :
  outcome (enhance_entity token client_get a) = Ok text ->
  exists rest,
    text = "Enhanced " ++ Args.type a ++ " Data:" ++ nl
             ++ PyStr.repeat "=" 50 ++ nl ++ nl ++ rest
    /\ (prefix "Match #1:" rest = true \/ prefix "No " rest = true).
Proof.
  intros Hrun.
  destruct (enhance_returns_format token client_get a text Hrun)
    as [Hvalid [data Hfmt]].
  assert (Htype : Args.type a = "Person" \/ Args.type a = "Organization").
  { apply known_type. unfold validate_enhance in Hvalid.
    destruct (existsb (String.eqb (Args.type a)) ["Person"; "Organization"]);
      [ reflexivity | discriminate ]. }
  unfold enhance_format in Hfmt. bind_inv Hfmt. ok_inv Hfmt. rename a0 into raw.
  unfold enhance_text in E. bind_inv E. bind_inv E. rename a1 into entities.
  destruct (Py.truthy entities) eqn:Htrue.
  - bind_inv E. rename a1 into items. bind_inv E. ok_inv E. rename a1 into matches.
    pose proof (iter_of_true entities items Htrue E2) as Hne.
    destruct items as [ | m ms]; [ contradiction | ].
    simpl in E3. bind_inv E3. bind_inv E3. ok_inv E3.
    destruct (format_match_heading (Args.type a) 1 m a1 E) as [tail ->].
    destruct (rstrip_keeps
                (banner (Args.type a) ++ "Match #1") ":"
                (nl ++ tail ++ a2) eq_refl) as [post Hpost].
    exists ("Match #1:" ++ post). split; [ | left; destruct post; reflexivity ].
    unfold PyStr.strip.
    assert (Hl : PyStr.lstrip (banner (Args.type a)
                                 ++ (match_heading 1 ++ tail) ++ a2)
                 = (banner (Args.type a) ++ "Match #1") ++ String ":" (nl ++ tail ++ a2)).
    { destruct Htype as [-> | ->]; cbn -[PyStr.repeat nl];
        rewrite ?append_assoc; reflexivity. }
    rewrite Hl, Hpost.
    destruct Htype as [-> | ->]; cbn -[PyStr.repeat nl]; rewrite ?append_assoc;
      reflexivity.
  - ok_inv E. exists (PyStr.strip (not_found (Args.type a))).
    destruct Htype as [-> | ->];
      (split; [ vm_compute; reflexivity | right; vm_compute; reflexivity ]).
Qed.

Lemma text_starts_with_banner_witness :
  exists rest,
    two_matches_text
    = "Enhanced " ++ "Organization" ++ " Data:" ++ nl
        ++ PyStr.repeat "=" 50 ++ nl ++ nl ++ rest
    /\ (prefix "Match #1:" rest = true \/ prefix "No " rest = true).
Proof.
  apply (text_starts_with_banner "token" (answers 200 (Some two_matches_body))
           acme_request two_matches_text).
  reflexivity.
Defined.

(** X19: the two wrappers add nothing to the request but what they are
    given.  [enhance_organization] sends token, type=Organization and,
    of name, url and location, those that are not [None], in that order;
    [enhance_person] sends token, type=Person, the name and, of location,
    employer and title, those that are not [None], in that order.
    Neither ever sends phone, school, ip, id, threshold, size, refresh or
    search.  Without a non-empty name or url, and with an empty name, they
    raise the [ValueError] of [enhance_entity] and send nothing. *)
Theorem wrappers_send_what_is_given
  (token : string) (client_get : request -> reply) :
  (forall name url location,
      given name || given url = true ->
      sent (enhance_organization token client_get name url location)
      = [{| req_url := enhance_url;
            req_params :=
              ([("token", PStr token); ("type", PStr "Organization")]
                 ++ optional "name" name ++ optional "url" url
                 ++ optional "location" location)%list |}])
  /\ (forall name url location,
        given name || given url = false ->
        enhance_organization token client_get name url location
        = ([], Raise (ValueError "For Organizations, either 'name' or 'url' is required")))
  /\ (forall name employer title location,
        name <> "" ->
        sent (enhance_person token client_get name employer title location)
        = [{| req_url := enhance_url;
              req_params :=
                ([("token", PStr token); ("type", PStr "Person"); ("name", PStr name)]
                   ++ optional "location" location ++ optional "employer" employer
                   ++ optional "title" title)%list |}])
  /\ (forall employer title location,
        enhance_person token client_get "" employer title location
        = ([], Raise (ValueError "For Persons, 'name' is required"))).
Proof.
  split; [ | split; [ | split ] ].
  - intros name url location Hgiven.
    unfold enhance_organization, enhance_entity, validate_enhance.
    cbn [Args.type Args.name Args.url existsb String.eqb Ascii.eqb Bool.eqb orb negb andb].
    rewrite Hgiven. cbn [negb fst snd sent].
    destruct name, url, location; reflexivity.
  - intros name url location Hgiven.
    unfold enhance_organization, enhance_entity, validate_enhance.
    cbn [Args.type Args.name Args.url existsb String.eqb Ascii.eqb Bool.eqb orb negb andb].
    rewrite Hgiven. reflexivity.
  - intros name employer title location Hname.
    assert (Hgiven : given (Some name) = true)
      by (destruct name; [ contradiction | reflexivity ]).
    unfold enhance_person, enhance_entity, validate_enhance.
    cbn [Args.type Args.name Args.url existsb String.eqb Ascii.eqb Bool.eqb orb negb andb].
    rewrite Hgiven. cbn [negb fst snd sent].
    destruct employer, title, location; reflexivity.
  - intros employer title location. reflexivity.
Qed.

Lemma validation_exact_witness :
  sent (enhance_entity "token" (answers 200 None) acme_request)
  = [{| req_url := enhance_url; req_params := enhance_params "token" acme_request |}]
  /\ exists msg, enhance_entity "token" (answers 200 None) (Args.default "Company")
                 = ([], Raise (ValueError msg)).
Proof.
  destruct (validation_exact "token" (answers 200 None) acme_request)
    as [_ [Hsent _]].
  destruct (validation_exact "token" (answers 200 None) (Args.default "Company"))
    as [_ [_ Hrefused]].
  split.
  - apply Hsent. reflexivity.
  - apply Hrefused. discriminate.
Defined.

Lemma search_sends_one_request_witness :
  dql_search "token" (answers 200 None) "type:article" 0 (-1)
  = ([], Raise (ValueError "num must be between 1 and 100")).
Proof.
  destruct (search_sends_one_request "token" (answers 200 None) "type:article" 0 (-1))
    as [_ [Hnum _]].
  apply Hnum. left. lia.
Defined.



(** X20: a token that passed the check at start-up is not empty, and every
    request that either tool then sends carries it as its [token]
    parameter; so no request leaves without a token. *)
Theorem requests_carry_the_token
  (env : option string) (token : string) (client_get : request -> reply) :
  load_token env = Ok token ->
  token <> ""
  /\ (forall query num start req,
        In req (sent (dql_search token client_get query num start)) ->
        param_of "token" (req_params req) = Some (PStr token))
  /\ (forall a req,
        In req (sent (enhance_entity token client_get a)) ->
        param_of "token" (req_params req) = Some (PStr token)).
Proof.
  intros Hload. split; [ | split ].
  - unfold load_token in Hload. destruct env as [t | ]; [ | discriminate ].
    destruct t; [ discriminate | ]. injection Hload as <-. discriminate.
  - intros query num start req. unfold dql_search, sent.
    destruct ((num <? 1) || (100 <? num)); [ intros [] | ].
    destruct (start <? 0); [ intros [] | ].
    cbn [fst]. intros [<- | []]. reflexivity.
  - intros a req. unfold enhance_entity, sent.
    destruct (validate_enhance a); [ | intros [] ].
    cbn [fst]. intros [<- | []]. cbn [req_params].
    unfold enhance_params.
    destruct (Args.threshold a), (negb (Args.size a =? 1)), (Args.refresh a),
      (Args.search a);
      read_params; (rewrite add_inputs_other; [ reflexivity | ]);
      rewrite input_params_keys; simpl; intuition discriminate.
Qed.

Lemma requests_carry_the_token_witness :
  "token" <> ""
  /\ (forall query num start req,
        In req (sent (dql_search "token" (answers 200 None) query num start)) ->
        param_of "token" (req_params req) = Some (PStr "token"))
  /\ (forall a req,
        In req (sent (enhance_entity "token" (answers 200 None) a)) ->
        param_of "token" (req_params req) = Some (PStr "token")).
Proof.
  apply (requests_carry_the_token (Some "token") "token" (answers 200 None)).
  reflexivity.
Defined.



Lemma wrappers_send_what_is_given_witness :
  sent (enhance_person "token" (answers 200 None) "Ada" (Some "Acme") None (Some "London"))
  = [{| req_url := enhance_url;
        req_params := [("token", PStr "token"); ("type", PStr "Person");
                       ("name", PStr "Ada"); ("location", PStr "London");
                       ("employer", PStr "Acme")] |}]
  /\ enhance_organization "token" (answers 200 None) None (Some "") (Some "Paris")
     = ([], Raise (ValueError "For Organizations, either 'name' or 'url' is required")).
Proof.
  destruct (wrappers_send_what_is_given "token" (answers 200 None))
    as [_ [Hrefused [Hperson _]]].
  split.
  - apply (Hperson "Ada" (Some "Acme") None (Some "London")). discriminate.
  - apply (Hrefused None (Some "") (Some "Paris")). reflexivity.
Defined.
